(** * DepHealth: the scan orchestrator of the CI action and the retrying API client

    A shallow embedding of [action/src/scanner.ts] ([scanDependencies]) and of
    the behaviour of the API client it drives (error classification and the
    retry loop), followed by the properties proved about them.

    Layout: definitions first (modules [NodePath], [ApiClient], [Scanner],
    [Reference], [Scenarios]), then the facts ([NodePathFacts],
    [ApiClientFacts], [ScannerFacts]). *)

From Stdlib Require Import List String Ascii ZArith Lia Bool Arith PeanoNat.
From Stdlib Require Import DecimalString.
Import ListNotations.
Local Open Scope string_scope.

(* ===================================================================== *)
(** ** node:path, as far as the scanner uses it *)
(* ===================================================================== *)

Module NodePath.

(** An absolute POSIX path: the segments between its slashes, from the
    root on.  [path.resolve] and [fs.realpathSync] hand back normalised
    paths, but nothing here relies on it: a segment may be empty, ["."] or
    [".."]. *)
Definition Path := list string.

(** What [path.resolve] makes of an absolute path (node's
    [normalizeString], above-root not allowed): empty segments and ["."]
    are dropped, [".."] drops the segment before it, and is itself dropped
    at the root.  [above] holds the segments kept so far, last first. *)
Fixpoint normalizeOnto (above : list string) (segments : Path) : Path :=
  match segments with
  | [] => rev above
  | s :: rest =>
      if String.eqb s EmptyString || String.eqb s "."
      then normalizeOnto above rest
      else if String.eqb s ".." then normalizeOnto (tl above) rest
      else normalizeOnto (s :: above) rest
  end.

Definition normalize (p : Path) : Path := normalizeOnto [] p.

(** A segment that normalisation keeps. *)
Definition kept (s : string) : Prop :=
  s <> EmptyString /\ s <> "." /\ s <> "..".

(** The string a [Path] stands for: ["/a/b"] for [["a"; "b"]]. *)
Definition render (p : Path) : string := "/" ++ String.concat "/" p.

(** [String.prototype.startsWith]. *)
Definition startsWith (s searchString : string) : bool :=
  String.prefix searchString s.

(** [path.isAbsolute] on POSIX: the string begins with a slash. *)
Definition isAbsolute (s : string) : bool := String.prefix "/" s.

(** The segments of [path.relative from to] for two normalised paths: the
    common leading segments are dropped, every segment left in [from]
    becomes [".."], and what is left of [to] follows. *)
Fixpoint relativeSegments (from to : Path) : list string :=
  match from, to with
  | f :: from', t :: to' =>
      if String.eqb f t then relativeSegments from' to'
      else map (fun _ => "..") from ++ to
  | [], _ => to
  | _ :: _, [] => map (fun _ => "..") from
  end.

(** [path.relative]: both arguments are resolved first, then compared. *)
Definition relative (from to : Path) : string :=
  String.concat "/" (relativeSegments (normalize from) (normalize to)).

(** [inside dir p], for normalised paths: [p] is [dir] or lies below it. *)
Fixpoint inside (dir p : Path) : bool :=
  match dir, p with
  | [], _ => true
  | d :: dir', s :: p' => String.eqb d s && inside dir' p'
  | _ :: _, [] => false
  end.

End NodePath.

(* ===================================================================== *)
(** ** The API client: error classifier and retrying request executor *)
(* ===================================================================== *)

Module ApiClient.

(** Modelled from the spec: the closed set of classified error codes
    (sections 4.1 and 7); the type is declared in the API client, whose
    source is not at hand. *)
Inductive ErrorCode : Type :=
| invalid_request
| unauthorized
| forbidden
| not_found
| rate_limited
| server_error
| network_error
| timeout
| unknown_error.

(** Modelled from the spec: what [ApiClientError] carries (section 3):
    message, classified code, and the HTTP status when there was a
    response. *)
Record ApiClientError : Type := mkApiClientError {
  message : string;
  code : ErrorCode;
  status : option Z
}.

(** Modelled from the spec: what the classifier looks at (section 4.1):
    the HTTP status of a non-success response, or, when no response
    arrived, whether the attempt was aborted by the deadline. *)
Inductive Failure : Type :=
| HttpStatus (status : Z)
| NoResponse
| TimeoutAbort.

(** Modelled from the spec: the classifier lives in
    packages/api-client/src/index.ts, which is not part of the sources at
    hand (only its test, retry.test.ts, is).  Section 4.1: 400
    invalid_request, 401 unauthorized, 403 forbidden, 404 not_found, 429
    rate_limited, 5xx server_error, no response network_error, deadline
    abort timeout, anything else unknown_error. *)
Definition classify (f : Failure) : ErrorCode :=
  match f with
  | NoResponse => network_error
  | TimeoutAbort => timeout
  | HttpStatus s =>
      if (s =? 400)%Z then invalid_request
      else if (s =? 401)%Z then unauthorized
      else if (s =? 403)%Z then forbidden
      else if (s =? 404)%Z then not_found
      else if (s =? 429)%Z then rate_limited
      else if ((500 <=? s) && (s <=? 599))%Z then server_error
      else unknown_error
  end.

(** Modelled from the spec: retry eligibility, a function of the
    classified code alone (section 4.1); the source is the same missing
    index.ts. *)
Definition retryable (c : ErrorCode) : bool :=
  match c with
  | rate_limited | server_error | network_error | timeout => true
  | invalid_request | unauthorized | forbidden | not_found
  | unknown_error => false
  end.

(** Modelled from the spec: the body of an error response, as far as the
    executor reads it (section 4.2). *)
Record ErrorBody : Type := mkErrorBody {
  nested_message : option string;   (* body.error.message *)
  flat_message : option string      (* body.message *)
}.

(** Modelled from the spec: what one network attempt can come to (section
    4.2). *)
Inductive Attempt (Body : Type) : Type :=
| Success (body : Body)
| MalformedBody (parseError : string)
| HttpFailure (status : Z) (statusText : string) (body : option ErrorBody)
| TransportFailure (reason : string)
| DeadlineExceeded (reason : string).
Arguments Success {Body} body.
Arguments MalformedBody {Body} parseError.
Arguments HttpFailure {Body} status statusText body.
Arguments TransportFailure {Body} reason.
Arguments DeadlineExceeded {Body} reason.

(** Modelled from the spec: how a logical request ends (section 4.2): the
    parsed body, a fatal parse error, or an [ApiClientError]. *)
Inductive Result (Body : Type) : Type :=
| Parsed (body : Body)
| ParseFailed (parseError : string)
| Failed (e : ApiClientError).
Arguments Parsed {Body} body.
Arguments ParseFailed {Body} parseError.
Arguments Failed {Body} e.

(** Modelled from the spec: what the executor does, in order: network
    calls and backoff delays. *)
Inductive Event : Type :=
| Fetch (attempt : nat)
| Sleep (milliseconds : Z).

(** Modelled from the spec: message extraction (section 4.2): nested
    [error.message] first, then flat [message], then the status text. *)
Definition extractMessage (statusText : string) (body : option ErrorBody)
  : string :=
  match body with
  | Some b =>
      match nested_message b with
      | Some m => m
      | None =>
          match flat_message b with
          | Some m => m
          | None => statusText
          end
      end
  | None => statusText
  end.

(** Modelled from the spec: the backoff before attempt [n+1] is
    [2^(n-1)] seconds plus a jitter within the following second
    (section 4.2); [n] counts attempts from 1. *)
Definition backoff (jitter : nat -> Z) (n : nat) : Z :=
  (1000 * 2 ^ (Z.of_nat n - 1) + jitter n mod 1000)%Z.

Section Executor.
Context {Body : Type}.
(** The network: the outcome of the attempt numbered [n] (from 1). *)
Variable net : nat -> Attempt Body.
Variable jitter : nat -> Z.

(** Modelled from the spec: how one attempt is settled (section 4.2):
    a success is parsed, a malformed success body is a fatal parse
    error, every other attempt is classified. *)
Definition settle (a : Attempt Body) : Result Body :=
  match a with
  | Success body => Parsed body
  | MalformedBody err => ParseFailed err
  | HttpFailure s text body =>
      Failed (mkApiClientError (extractMessage text body)
                (classify (HttpStatus s)) (Some s))
  | TransportFailure reason =>
      Failed (mkApiClientError reason (classify NoResponse) None)
  | DeadlineExceeded reason =>
      Failed (mkApiClientError reason (classify TimeoutAbort) None)
  end.

(** Modelled from the spec: the attempt loop of the executor (section
    4.2), [retriesLeft] retries still allowed, attempt [n] next: a
    retryable failure is retried after the backoff while retries
    remain, everything else ends the request. *)
Fixpoint attempts (retriesLeft : nat) (n : nat)
  : Result Body * list Event :=
  match settle (net n) with
  | Failed e =>
      match retriesLeft with
      | S fewer =>
          if retryable (code e) then
            let (r, evs) := attempts fewer (S n) in
            (r, Fetch n :: Sleep (backoff jitter n) :: evs)
          else (Failed e, [Fetch n])
      | O => (Failed e, [Fetch n])
      end
  | r => (r, [Fetch n])
  end.

(** Modelled from the spec: [execute], the logical request under the
    configured retry limit. *)
Definition execute (maxRetries : nat) : Result Body * list Event :=
  attempts maxRetries 1.

End Executor.

(** An attempt that fails with a retryable classification. *)
Definition failsRetryably {Body} (a : Attempt Body) : Prop :=
  exists e, settle a = Failed e /\ retryable (code e) = true.

(** The number of network calls in a trace. *)
Definition fetchCount (evs : list Event) : nat :=
  List.length
    (filter (fun e => match e with Fetch _ => true | Sleep _ => false end) evs).

End ApiClient.

(* ===================================================================== *)
(** ** action/src/scanner.ts *)
(* ===================================================================== *)

Module Scanner.
Import NodePath.

Definition BATCH_SIZE : nat := 25.

(** ** Data: the types imported from ./api *)

(** Modelled from the spec: the ecosystem tag of a scan (section 3), the
    string it is on the wire; ./api, which declares it, is not among the
    sources. *)
Definition Ecosystem := string.

(** Modelled from the spec: the declaration of [PackageHealth] is in
    ./api, which is not among the sources; section 3 gives the risk level
    as the closed enumeration LOW/MEDIUM/HIGH/CRITICAL. *)
Inductive RiskLevel : Type := LOW | MEDIUM | HIGH | CRITICAL.

Definition RiskLevel_eqb (a b : RiskLevel) : bool :=
  match a, b with
  | LOW, LOW | MEDIUM, MEDIUM | HIGH, HIGH | CRITICAL, CRITICAL => true
  | _, _ => false
  end.

(** Modelled from the spec: the optional data-quality assessment of a
    package (section 3).  The scanner reads [assessment] as an open string
    with a fallback (line 173), so it is kept as the string it is. *)
Record DataQuality : Type := mkDataQuality {
  assessment : option string
}.

(** Modelled from the spec: [PackageHealth] (section 3), with the fields
    the scanner and its tests touch. *)
Record PackageHealth : Type := mkPackageHealth {
  package : string;
  health_score : Z;
  risk_level : RiskLevel;
  data_quality : option DataQuality
}.

(** Modelled from the spec: the data-quality summary of a [ScanResult]
    (section 3), with the field names of lines 197-201. *)
Record DataQualitySummary : Type := mkDataQualitySummary {
  verified_count : Z;
  partial_count : Z;
  unverified_count : Z
}.

(** Modelled from the spec: [ScanResult] (section 3), with the field
    names of lines 189-203; its own [data_quality] field is [quality] here,
    the name being taken by the field of [PackageHealth]. *)
Record ScanResult : Type := mkScanResult {
  total : Z;
  critical : Z;
  high : Z;
  medium : Z;
  low : Z;
  packages : list PackageHealth;
  not_found : option (list string);
  quality : option DataQualitySummary;
  verified_risk_count : option Z;
  unverified_risk_count : option Z
}.

(** [ScanResultWithMeta extends ScanResult]. *)
Record ScanResultWithMeta : Type := mkScanResultWithMeta {
  base : ScanResult;
  format : string;
  ecosystem : Ecosystem
}.

(** A [Record<string, string>]: the entries of the object in its own
    iteration order, keys distinct. *)
Definition Dependencies := list (string * string).

(** Modelled from the spec: what the manifest readers return (section 6),
    with the field names of lines 71-79. *)
Record ReadResult : Type := mkReadResult {
  dependencies : Dependencies;
  read_ecosystem : Ecosystem;
  read_format : string
}.

Record Stats : Type := mkStats {
  isFile : bool;
  isDirectory : bool
}.

(** ** Exceptions *)

(** The values the scanner sees thrown: the two error classes it tests
    with [instanceof], any other [Error], and a thrown value that is not
    an [Error] (kept as its [String(...)] text). *)
Inductive Exn : Type :=
| DependencyParseError (message : string)
| ApiClientError (e : ApiClient.ApiClientError)
| Error (message : string)
| Thrown (text : string).

(** [error instanceof Error ? error.message : String(error)]. *)
Definition messageOf (error : Exn) : string :=
  match error with
  | DependencyParseError m => m
  | ApiClientError e => ApiClient.message e
  | Error m => m
  | Thrown t => t
  end.

(** What a call into a collaborator comes to. *)
Inductive Answer (A : Type) : Type :=
| Gave (a : A)
| Raised (e : Exn).
Arguments Gave {A} a.
Arguments Raised {A} e.

(** ** The world around the scanner *)

Definition Request := (Dependencies * Ecosystem)%type.

Inductive ReadCall : Type :=
| ReadFile (p : Path) (includeDev : bool)
| ReadDirectory (p : Path) (includeDev : bool).

Inductive LogEntry : Type :=
| Debug (text : string)
| Info (text : string)
| Warning (text : string).

(** What the scanner has done so far: the [client.scan] requests issued,
    the manifest reads, the lines logged through [@actions/core]. *)
Record World : Type := mkWorld {
  requests : list Request;
  reads : list ReadCall;
  log : list LogEntry
}.

Definition start : World := mkWorld [] [] [].

(** The collaborators.  [PkgWatchClient apiKey] is the client; what its
    [scan] answers may depend on the requests that came before. *)
Record Env : Type := mkEnv {
  resolve : string -> Path;
  existsSync : Path -> bool;
  realpathSync : Path -> Answer Path;
  statSync : Path -> Answer Stats;
  GITHUB_WORKSPACE : option string;
  cwd : string;
  readDependenciesFromFile : Path -> bool -> Answer ReadResult;
  readDependencies : Path -> bool -> Answer ReadResult;
  PkgWatchClient : string -> list Request -> Request -> Answer ScanResult
}.

(** ** State and exceptions *)

Inductive Outcome (A : Type) : Type :=
| Returned (a : A)
| Threw (e : Exn)
| OutOfFuel.
Arguments Returned {A} a.
Arguments Threw {A} e.
Arguments OutOfFuel {A}.

Definition M (A : Type) : Type := World -> Outcome A * World.

Definition ret {A} (a : A) : M A := fun w => (Returned a, w).

Definition throw {A} (e : Exn) : M A := fun w => (Threw e, w).

Definition bind {A B} (c : M A) (k : A -> M B) : M B :=
  fun w =>
    match c w with
    | (Returned a, w') => k a w'
    | (Threw e, w') => (Threw e, w')
    | (OutOfFuel, w') => (OutOfFuel, w')
    end.

(** [try { c } catch (error) { handler error }]: what [c] did before it
    threw stays done. *)
Definition tryCatch {A} (c : M A) (handler : Exn -> M A) : M A :=
  fun w =>
    match c w with
    | (Threw e, w') => handler e w'
    | other => other
    end.

Definition call {A} (a : Answer A) : M A :=
  match a with
  | Gave x => ret x
  | Raised e => throw e
  end.

Declare Scope scanner_scope.
Delimit Scope scanner_scope with scanner.
Notation "x <- c ;; k" := (bind c (fun x => k))
  (at level 61, c at next level, right associativity) : scanner_scope.
Notation "c ;; k" := (bind c (fun _ => k))
  (at level 61, right associativity) : scanner_scope.
Local Open Scope scanner_scope.

Definition logged (e : LogEntry) : M unit :=
  fun w => (Returned tt, mkWorld (requests w) (reads w) (log w ++ [e])%list).

Definition core_debug (text : string) : M unit := logged (Debug text).
Definition core_info (text : string) : M unit := logged (Info text).
Definition core_warning (text : string) : M unit := logged (Warning text).

(** [client.scan(deps, ecosystem)]: the request is issued, then answered. *)
Definition scan (env : Env) (apiKey : string)
    (deps : Dependencies) (eco : Ecosystem) : M ScanResult :=
  fun w =>
    let w' := mkWorld (requests w ++ [(deps, eco)])%list (reads w) (log w) in
    match PkgWatchClient env apiKey (requests w) (deps, eco) with
    | Gave r => (Returned r, w')
    | Raised e => (Threw e, w')
    end.

Definition noteRead (r : ReadCall) : M unit :=
  fun w => (Returned tt, mkWorld (requests w) (reads w ++ [r])%list (log w)).

(** ** Small pieces of JavaScript *)

(** A number in a template literal. *)
Definition toString (n : nat) : string :=
  NilZero.string_of_uint (Nat.to_uint n).

Definition newline : string := String (ascii_of_nat 10) EmptyString.

(** [Array.prototype.slice(start, end)] for indices within the array. *)
Definition slice {A} (l : list A) (start end_ : nat) : list A :=
  firstn (end_ - start) (skipn start l).

(** [o[k] = v] on an object: an existing key keeps its place. *)
Fixpoint assign (o : Dependencies) (k v : string) : Dependencies :=
  match o with
  | [] => [(k, v)]
  | (k', v') :: o' =>
      if String.eqb k' k then (k', v) :: o' else (k', v') :: assign o' k v
  end.

(** [Object.fromEntries]. *)
Definition fromEntries (entries : list (string * string)) : Dependencies :=
  fold_left (fun o kv => assign o (fst kv) (snd kv)) entries [].

(** [Math.ceil(a / b)] on naturals. *)
Definition ceilDiv (a b : nat) : nat := (a + (b - 1)) / b.

(** ** scanDependencies, lines 42-90: from the path to the dependencies *)

(** [process.env.GITHUB_WORKSPACE || process.cwd()]: an unset or empty
    variable gives the working directory. *)
Definition workspaceOf (env : Env) : string :=
  match GITHUB_WORKSPACE env with
  | None => cwd env
  | Some EmptyString => cwd env
  | Some w => w
  end.

Definition hint : string :=
  "Ensure the 'working-directory' input points to a directory containing a supported dependency file.".

Definition readManifest (env : Env) (basePath : string) (includeDev : bool)
  : M ReadResult :=
  tryCatch
    (let resolvedPath := resolve env basePath in
     if negb (existsSync env resolvedPath) then
       throw (DependencyParseError
                ("Path does not exist: " ++ render resolvedPath))
     else
       realPath <-
         tryCatch (call (realpathSync env resolvedPath))
           (fun err =>
              let errMsg := messageOf err in
              throw (DependencyParseError
                       ("Cannot resolve path " ++ render resolvedPath
                        ++ ": " ++ errMsg)));;
       let workspace := workspaceOf env in
       let relativeToWorkspace :=
         relative (resolve env workspace) realPath in
       if startsWith relativeToWorkspace ".."
          || isAbsolute relativeToWorkspace
       then
         throw (DependencyParseError
                  ("Path resolves outside workspace via symlink: "
                   ++ render resolvedPath ++ " -> " ++ render realPath))
       else
         stats <- call (statSync env realPath);;
         if isFile stats then
           noteRead (ReadFile realPath includeDev);;
           call (readDependenciesFromFile env realPath includeDev)
         else if isDirectory stats then
           noteRead (ReadDirectory realPath includeDev);;
           call (readDependencies env realPath includeDev)
         else
           throw (DependencyParseError
                    ("Path is not a file or directory: "
                     ++ render realPath)))
    (fun err =>
       match err with
       | DependencyParseError message =>
           throw (Error (message ++ newline ++ newline ++ hint))
       | _ => throw err
       end).

(** ** scanDependencies, lines 124-163: the batch loop *)

Record BatchState : Type := mkBatchState {
  allPackages : list PackageHealth;
  notFound : list string;
  failedBatches : nat
}.

(** The codes on which the loop gives up (line 148). *)
Definition abortsScan (error : Exn) : bool :=
  match error with
  | ApiClientError e =>
      match ApiClient.code e with
      | ApiClient.rate_limited
      | ApiClient.unauthorized
      | ApiClient.forbidden => true
      | _ => false
      end
  | _ => false
  end.

(** The warning of line 156. *)
Definition batchFailedMessage (batchNum : nat) (error : Exn)
    (batchEntries : list (string * string)) : string :=
  let packageNames := map fst batchEntries in
  let errorMessage := messageOf error in
  "Batch " ++ toString batchNum ++ " failed: " ++ errorMessage
  ++ ". Packages: " ++ String.concat ", " (slice packageNames 0 5)
  ++ (if (5 <? List.length packageNames)%nat
      then " and " ++ toString (List.length packageNames - 5) ++ " more"
      else EmptyString).

(** One turn of the loop, at index [i]. *)
Definition batchTurn (env : Env) (apiKey : string) (ecosystem : Ecosystem)
    (depEntries : list (string * string)) (i : nat) (st : BatchState)
  : M BatchState :=
  let batchNum := i / BATCH_SIZE + 1 in
  let totalBatches := ceilDiv (List.length depEntries) BATCH_SIZE in
  core_info ("Processing batch " ++ toString batchNum ++ "/"
             ++ toString totalBatches ++ "...");;
  let batchEntries :=
    slice depEntries i (Nat.min (i + BATCH_SIZE) (List.length depEntries)) in
  let batchDeps := fromEntries batchEntries in
  tryCatch
    (batchResult <- scan env apiKey batchDeps ecosystem;;
     ret (mkBatchState
            (allPackages st ++ packages batchResult)%list
            (match not_found batchResult with
             | Some names => (notFound st ++ names)%list
             | None => notFound st
             end)
            (failedBatches st)))
    (fun error =>
       if abortsScan error then throw error
       else
         core_warning (batchFailedMessage batchNum error batchEntries);;
         ret (mkBatchState (allPackages st) (notFound st)
                (S (failedBatches st)))).

(** [for (let i = ...; i < depEntries.length; i += BATCH_SIZE)], one
    unit of fuel per turn. *)
Fixpoint batchLoop (fuel : nat) (env : Env) (apiKey : string)
    (ecosystem : Ecosystem) (depEntries : list (string * string))
    (i : nat) (st : BatchState) : M BatchState :=
  if (i <? List.length depEntries)%nat then
    match fuel with
    | O => fun w => (OutOfFuel, w)
    | S fuel' =>
        st' <- batchTurn env apiKey ecosystem depEntries i st;;
        batchLoop fuel' env apiKey ecosystem depEntries (i + BATCH_SIZE) st'
    end
  else ret st.

(** ** scanDependencies, lines 165-206: aggregation *)

Record QualityCounters : Type := mkQualityCounters {
  verifiedCount : nat;
  partialCount : nat;
  unverifiedCount : nat;
  verifiedRiskCount : nat;
  unverifiedRiskCount : nat
}.

(** [pkg.data_quality?.assessment || "UNVERIFIED"]: a missing quality, a
    missing assessment and the empty string all give the default. *)
Definition assessmentOf (pkg : PackageHealth) : string :=
  match data_quality pkg with
  | None => "UNVERIFIED"
  | Some dq =>
      match assessment dq with
      | None => "UNVERIFIED"
      | Some EmptyString => "UNVERIFIED"
      | Some a => a
      end
  end.

Definition isHighRisk (pkg : PackageHealth) : bool :=
  RiskLevel_eqb (risk_level pkg) HIGH
  || RiskLevel_eqb (risk_level pkg) CRITICAL.

Definition bump (b : bool) (n : nat) : nat := if b then S n else n.

(** The body of [for (const pkg of allPackages)]. *)
Definition tally (c : QualityCounters) (pkg : PackageHealth)
  : QualityCounters :=
  let assessment := assessmentOf pkg in
  let isHighRisk := isHighRisk pkg in
  if String.eqb assessment "VERIFIED" then
    mkQualityCounters (S (verifiedCount c)) (partialCount c)
      (unverifiedCount c) (bump isHighRisk (verifiedRiskCount c))
      (unverifiedRiskCount c)
  else if String.eqb assessment "PARTIAL" then
    mkQualityCounters (verifiedCount c) (S (partialCount c))
      (unverifiedCount c) (verifiedRiskCount c)
      (bump isHighRisk (unverifiedRiskCount c))
  else
    mkQualityCounters (verifiedCount c) (partialCount c)
      (S (unverifiedCount c)) (verifiedRiskCount c)
      (bump isHighRisk (unverifiedRiskCount c)).

(** [allPackages.filter(p => p.risk_level === level).length]. *)
Definition withRisk (level : RiskLevel) (allPackages : list PackageHealth)
  : Z :=
  Z.of_nat
    (List.length
       (filter (fun p => RiskLevel_eqb (risk_level p) level) allPackages)).

(** The object returned at lines 189-206, without [format] and
    [ecosystem]. *)
Definition aggregate (st : BatchState) : ScanResult :=
  let c := fold_left tally (allPackages st)
             (mkQualityCounters 0 0 0 0 0) in
  mkScanResult
    (Z.of_nat (List.length (allPackages st)))
    (withRisk CRITICAL (allPackages st))
    (withRisk HIGH (allPackages st))
    (withRisk MEDIUM (allPackages st))
    (withRisk LOW (allPackages st))
    (allPackages st)
    (if (0 <? List.length (notFound st))%nat then Some (notFound st) else None)
    (Some (mkDataQualitySummary
             (Z.of_nat (verifiedCount c))
             (Z.of_nat (partialCount c))
             (Z.of_nat (unverifiedCount c))))
    (Some (Z.of_nat (verifiedRiskCount c)))
    (Some (Z.of_nat (unverifiedRiskCount c))).

(** ** scanDependencies, lines 92-122 and the whole *)

(** Lines 98-206: what happens once the dependencies are read. *)
Definition scanRead (env : Env) (apiKey : string)
    (dependencies : Dependencies) (ecosystem : Ecosystem)
    (format : string) : M ScanResultWithMeta :=
  let depCount := List.length dependencies in
  if (depCount =? 0)%nat then
    core_info ("No dependencies found in " ++ format);;
    ret (mkScanResultWithMeta
           (mkScanResult 0 0 0 0 0 [] None None None None)
           format ecosystem)
  else
    core_info ("Found " ++ toString depCount ++ " " ++ ecosystem
               ++ " dependencies in " ++ format
               ++ ", analyzing health scores...");;
    if (depCount <=? BATCH_SIZE)%nat then
      tryCatch
        (result <- scan env apiKey dependencies ecosystem;;
         ret (mkScanResultWithMeta result format ecosystem))
        (fun error =>
           match error with
           | ApiClientError _ => throw error
           | _ =>
               throw (Error ("Failed to scan dependencies: "
                             ++ messageOf error))
           end)
    else
      let depEntries := dependencies in
      st <- batchLoop (List.length depEntries) env apiKey ecosystem
              depEntries 0 (mkBatchState [] [] 0);;
      (if (0 <? failedBatches st)%nat then
         core_warning (toString (failedBatches st)
                       ++ " batch(es) failed. Results may be incomplete.")
       else ret tt);;
      ret (mkScanResultWithMeta (aggregate st) format ecosystem).

Definition scanDependencies (env : Env) (apiKey basePath : string)
    (includeDev : bool) (ecosystemOverride : option Ecosystem)
  : M ScanResultWithMeta :=
  read <- readManifest env basePath includeDev;;
  ecosystem <-
    match ecosystemOverride with
    | None => ret (read_ecosystem read)
    | Some EmptyString => ret (read_ecosystem read)
    | Some override =>
        core_debug ("Ecosystem overridden to " ++ override);;
        ret override
    end;;
  scanRead env apiKey (dependencies read) ecosystem (read_format read).

End Scanner.

(* ===================================================================== *)
(** ** The specification's vocabulary, to state the facts with *)
(* ===================================================================== *)

Module Reference.
Import Scanner.

(** The aggregation invariant of a [ScanResult] (section 3). *)
Definition aggregationInvariant (r : ScanResult) : Prop :=
  total r = (critical r + high r + medium r + low r)%Z
  /\ total r = Z.of_nat (List.length (packages r)).

(** Consecutive chunks of at most [capacity] entries, in the order of
    the entries (section 4.3). *)
Fixpoint chunksOf {A} (fuel capacity : nat) (entries : list A)
  : list (list A) :=
  match fuel, entries with
  | S fuel', _ :: _ =>
      firstn capacity entries
      :: chunksOf fuel' capacity (skipn capacity entries)
  | _, _ => []
  end.

Definition chunks {A} (capacity : nat) (entries : list A)
  : list (list A) :=
  chunksOf (List.length entries) capacity entries.

(** The requests a multi-chunk scan is to issue, in order. *)
Definition batchRequests (ecosystem : Ecosystem) (deps : Dependencies)
  : list Request :=
  map (fun chunk => (fromEntries chunk, ecosystem))
    (chunks BATCH_SIZE deps).

(** What the client answers when the requests [todo] are issued one
    after the other, [history] having been issued before. *)
Fixpoint answers (client : list Request -> Request -> Answer ScanResult)
    (history todo : list Request) : list (Answer ScanResult) :=
  match todo with
  | [] => []
  | rq :: todo' =>
      client history rq :: answers client (history ++ [rq])%list todo'
  end.

(** A failure that aborts the scan: an [ApiClientError] whose code is
    rate_limited, unauthorized or forbidden. *)
Definition scanFatal (error : Exn) : Prop :=
  exists e, error = ApiClientError e
    /\ (ApiClient.code e = ApiClient.rate_limited
        \/ ApiClient.code e = ApiClient.unauthorized
        \/ ApiClient.code e = ApiClient.forbidden).

(** An answer that lets the scan go on: a result, or a failure that is
    not scan-fatal. *)
Definition goesOn (a : Answer ScanResult) : Prop :=
  match a with
  | Gave _ => True
  | Raised e => ~ scanFatal e
  end.

Definition packagesOf (a : Answer ScanResult) : list PackageHealth :=
  match a with
  | Gave r => packages r
  | Raised _ => []
  end.

Definition notFoundOf (a : Answer ScanResult) : list string :=
  match a with
  | Gave r => match not_found r with Some names => names | None => [] end
  | Raised _ => []
  end.

Definition failed (a : Answer ScanResult) : bool :=
  match a with
  | Gave _ => false
  | Raised _ => true
  end.

(** The merge of section 4.3: packages and not-found names of the
    successful chunks concatenated in chunk order, failed chunks counted. *)
Definition merged (replies : list (Answer ScanResult)) : BatchState :=
  mkBatchState (flat_map packagesOf replies) (flat_map notFoundOf replies)
    (List.length (filter failed replies)).

(** A successful chunk is taken in; a failed chunk is counted. *)
Definition absorb (st : BatchState) (r : ScanResult) : BatchState :=
  mkBatchState (allPackages st ++ packages r)%list
    (match not_found r with
     | Some names => (notFound st ++ names)%list
     | None => notFound st
     end)
    (failedBatches st).

Definition countFailure (st : BatchState) : BatchState :=
  mkBatchState (allPackages st) (notFound st) (S (failedBatches st)).

(** The per-chunk failure policy of section 4.3, read off the answers:
    how the scan ends from state [st], and how many requests it issues.
    A scan-fatal failure ends it there; any other failure is counted and
    the next chunk follows. *)
Fixpoint policy (replies : list (Answer ScanResult)) (st : BatchState)
  : Outcome BatchState * nat :=
  match replies with
  | [] => (Returned st, 0)
  | Gave r :: rest =>
      let (o, n) := policy rest (absorb st r) in (o, S n)
  | Raised e :: rest =>
      if abortsScan e then (Threw e, 1)
      else let (o, n) := policy rest (countFailure st) in (o, S n)
  end.

(** The data-quality assessment a package counts under: VERIFIED and
    PARTIAL when it says so, UNVERIFIED when the assessment is missing
    or says anything else. *)
Inductive Assessment : Type := VERIFIED | PARTIAL | UNVERIFIED.

Definition Assessment_eqb (a b : Assessment) : bool :=
  match a, b with
  | VERIFIED, VERIFIED | PARTIAL, PARTIAL | UNVERIFIED, UNVERIFIED => true
  | _, _ => false
  end.

Definition statedAssessment (pkg : PackageHealth) : option string :=
  match data_quality pkg with
  | Some dq => assessment dq
  | None => None
  end.

Definition countsAs (pkg : PackageHealth) : Assessment :=
  match statedAssessment pkg with
  | Some a =>
      if String.eqb a "VERIFIED" then VERIFIED
      else if String.eqb a "PARTIAL" then PARTIAL
      else UNVERIFIED
  | None => UNVERIFIED
  end.

Definition highOrCritical (pkg : PackageHealth) : bool :=
  match risk_level pkg with
  | HIGH | CRITICAL => true
  | LOW | MEDIUM => false
  end.

Definition howMany {A} (p : A -> bool) (l : list A) : Z :=
  Z.of_nat (List.length (filter p l)).

Definition unit_of (b : bool) : nat := if b then 1 else 0.

(** The ecosystem a scan runs under: the override when one is given. *)
Definition effectiveEcosystem (ecosystemOverride : option Ecosystem)
    (read : ReadResult) : Ecosystem :=
  match ecosystemOverride with
  | None => read_ecosystem read
  | Some EmptyString => read_ecosystem read
  | Some override => override
  end.

End Reference.

(* ===================================================================== *)
(** ** Concrete runs, after the repository's tests *)
(* ===================================================================== *)

Module Scenarios.
Import NodePath Scanner.

Fixpoint splitSlash (s current : string) : list string :=
  match s with
  | EmptyString => [current]
  | String c s' =>
      if Ascii.eqb c "/" then current :: splitSlash s' EmptyString
      else splitSlash s' (current ++ String c EmptyString)
  end.

(** The segments of an absolute path written without [.] and [..]. *)
Definition segments (s : string) : Path :=
  filter (fun x => negb (String.eqb x EmptyString))
    (splitSlash s EmptyString).

(** A runner whose workspace is /repo; [real] plays [realpathSync],
    [manifest] is what the reader finds, [client] answers the scans. *)
Definition runner (real : Path -> Answer Path) (stats : Answer Stats)
    (manifest : Answer ReadResult)
    (client : list Request -> Request -> Answer ScanResult) : Env :=
  mkEnv segments (fun _ => true) real (fun _ => stats)
    (Some "/repo") "/home/runner"
    (fun _ _ => manifest) (fun _ _ => manifest)
    (fun _ => client).

Definition directory : Answer Stats := Gave (mkStats false true).

Definition noSymlink (p : Path) : Answer Path := Gave p.

Definition npm (deps : Dependencies) : Answer ReadResult :=
  Gave (mkReadResult deps "npm" "package.json").

(** [n] dependencies pkg-0 ... pkg-(n-1), all at ^1.0.0. *)
Definition numbered (n : nat) : Dependencies :=
  map (fun i => ("pkg-" ++ toString i, "^1.0.0")) (seq 0 n).

Definition pkg (i : nat) (level : RiskLevel) : PackageHealth :=
  mkPackageHealth ("pkg-" ++ toString i) 85 level None.

(** The client that answers its calls from a list, in order. *)
Definition scripted (script : list (Answer ScanResult))
  : list Request -> Request -> Answer ScanResult :=
  fun history _ =>
    nth (List.length history) script (Raised (Error "no more answers")).

(** "processes dependencies in batches when > 25 packages". *)
Definition firstBatch : ScanResult :=
  mkScanResult 25 1 2 10 12
    (map (fun i =>
            pkg i (if (i =? 0)%nat then CRITICAL
                   else if (i <? 3)%nat then HIGH
                   else if (i <? 13)%nat then MEDIUM else LOW))
       (seq 0 25))
    None None None None.

Definition secondBatch : ScanResult :=
  mkScanResult 5 0 1 2 2
    (map (fun i =>
            pkg (25 + i) (if (i =? 0)%nat then HIGH
                          else if (i <? 3)%nat then MEDIUM else LOW))
       (seq 0 5))
    None None None None.

Definition thirtyEnv : Env :=
  runner noSymlink directory (npm (numbered 30))
    (scripted [Gave firstBatch; Gave secondBatch]).

(** "does not batch when <= 25 packages": twenty dependencies, and a
    response that counts twenty packages and lists none. *)
Definition twentyCounted : ScanResult :=
  mkScanResult 20 0 0 0 20 [] None None None None.

Definition twentyEnv : Env :=
  runner noSymlink directory (npm (numbered 20))
    (scripted [Gave twentyCounted]).

(** "returns empty result for no dependencies". *)
Definition emptyEnv : Env :=
  runner noSymlink directory (npm []) (scripted []).

(** One dependency, and a client whose call fails with an error that is
    not an [ApiClientError]. *)
Definition parseFailureEnv : Env :=
  runner noSymlink directory (npm [("lodash", "^4.17.21")])
    (scripted [Raised (Error "Unexpected token < in JSON at position 0")]).

(** Twenty-six dependencies; both chunks report the same name as not
    found. *)
Definition ghost (n : Z) (found : list PackageHealth) : ScanResult :=
  mkScanResult n 0 0 0 n found (Some ["ghost"]) None None None.

Definition ghostEnv : Env :=
  runner noSymlink directory (npm (numbered 26))
    (scripted [Gave (ghost 1 [pkg 0 LOW]); Gave (ghost 1 [pkg 25 LOW])]).

(** Chunk 1 fails with server_error, chunk 2 gives five LOW packages. *)
Definition serverError : Exn :=
  ApiClientError
    (ApiClient.mkApiClientError "Internal Server Error"
       ApiClient.server_error (Some 500%Z)).

Definition fiveLow : ScanResult :=
  mkScanResult 5 0 0 0 5 (map (fun i => pkg (25 + i) LOW) (seq 0 5))
    None None None None.

Definition flakyEnv : Env :=
  runner noSymlink directory (npm (numbered 30))
    (scripted [Raised serverError; Gave fiveLow]).

(** Chunk 1 fails with rate_limited. *)
Definition rateLimited : ApiClient.ApiClientError :=
  ApiClient.mkApiClientError "Rate limited" ApiClient.rate_limited
    (Some 429%Z).

Definition throttledEnv : Env :=
  runner noSymlink directory (npm (numbered 30))
    (scripted [Raised (ApiClientError rateLimited); Gave fiveLow]).

(** "rejects symlinks pointing outside workspace". *)
Definition escapingEnv : Env :=
  runner (fun _ => Gave ["etc"; "passwd"]) directory (npm (numbered 1))
    (scripted []).

(** "handles broken symlinks gracefully". *)
Definition brokenEnv : Env :=
  runner (fun _ => Raised (Error "ENOENT: no such file or directory"))
    directory (npm (numbered 1)) (scripted []).

(** "fails after max retries exceeded": every fetch answers 500. *)
Definition alwaysDown : nat -> ApiClient.Attempt unit :=
  fun _ => ApiClient.HttpFailure 500%Z "Internal Server Error" None.

(** "does NOT retry on 400 error". *)
Definition badRequest : nat -> ApiClient.Attempt unit :=
  fun _ =>
    ApiClient.HttpFailure 400%Z "Bad Request"
      (Some (ApiClient.mkErrorBody None (Some "Invalid request"))).

Definition noJitter : nat -> Z := fun _ => 0%Z.

(** Packages with every kind of data-quality assessment. *)
Definition assessed (name : string) (level : RiskLevel)
    (a : option DataQuality) : PackageHealth :=
  mkPackageHealth name 50 level a.

Definition mixedQuality : list PackageHealth :=
  [ assessed "a" HIGH (Some (mkDataQuality (Some "VERIFIED")));
    assessed "b" CRITICAL (Some (mkDataQuality (Some "PARTIAL")));
    assessed "c" HIGH (Some (mkDataQuality (Some "SKETCHY")));
    assessed "d" CRITICAL None;
    assessed "e" LOW (Some (mkDataQuality None));
    assessed "f" MEDIUM (Some (mkDataQuality (Some "VERIFIED"))) ].

Definition mixedEnv : Env :=
  runner noSymlink directory (npm (numbered 26))
    (scripted [Gave (mkScanResult 6 2 2 1 1 mixedQuality None None None None);
               Gave (mkScanResult 0 0 0 0 0 [] None None None None)]).

End Scenarios.

(* ===================================================================== *)
(** ** Further vocabulary and runs, for the rest of scanner.ts *)
(* ===================================================================== *)

Module Observations.
Import NodePath Scanner Reference.

(** The test of line 62, on the workspace and the real path. *)
Definition refusedByGuard (workspace realPath : Path) : bool :=
  startsWith (relative workspace realPath) ".."
  || isAbsolute (relative workspace realPath).

(** What the handler of lines 83-90 throws when it catches [err]. *)
Definition rethrown (err : Exn) : Exn :=
  match err with
  | DependencyParseError message =>
      Error (message ++ newline ++ newline ++ hint)
  | _ => err
  end.

(** The line of line 134. *)
Definition progressLine (totalBatches batchNum : nat) : LogEntry :=
  Info ("Processing batch " ++ toString batchNum ++ "/"
        ++ toString totalBatches ++ "...").

(** The line of line 105. *)
Definition foundLine (depCount : nat) (ecosystem : Ecosystem)
    (format : string) : LogEntry :=
  Info ("Found " ++ toString depCount ++ " " ++ ecosystem
        ++ " dependencies in " ++ format
        ++ ", analyzing health scores...").

Definition isInfo (e : LogEntry) : bool :=
  match e with
  | Info _ => true
  | Debug _ | Warning _ => false
  end.

(** The world after one more manifest read. *)
Definition afterRead (w : World) (r : ReadCall) : World :=
  mkWorld (requests w) (reads w ++ [r])%list (log w).

(** A failure that is counted and passed over: any failure that is not
    scan-fatal. *)
Definition passedOver (a : Answer ScanResult) : Prop :=
  exists e, a = Raised e /\ ~ scanFatal e.

Definition isWarning (e : LogEntry) : bool :=
  match e with
  | Warning _ => true
  | Debug _ | Info _ => false
  end.

(** A runner with [GITHUB_WORKSPACE] unset, as in the symlink tests: the
    workspace is the working directory, against which [path.resolve]
    resolves relative paths. *)
Definition workingDirectory : string := "/home/runner/work/app".

Definition resolveFrom (directory path : string) : Path :=
  normalize ((if String.prefix "/" path then []
              else Scenarios.segments directory)
             ++ Scenarios.segments path)%list.

Definition cwdRunner (real : Path -> Answer Path) (stats : Answer Stats)
    (manifest : Answer ReadResult)
    (client : list Request -> Request -> Answer ScanResult) : Env :=
  mkEnv (resolveFrom workingDirectory) (fun _ => true) real
    (fun _ => stats) None workingDirectory
    (fun _ _ => manifest) (fun _ _ => manifest) (fun _ => client).

(** "rejects symlinks using parent directory traversal": the real path
    is [${workspace}/../secrets/config]. *)
Definition traversalEnv : Env :=
  cwdRunner
    (fun _ => Gave ["home"; "runner"; "work"; "app"; ".."; "secrets";
                    "config"])
    Scenarios.directory (Scenarios.npm (Scenarios.numbered 1))
    (Scenarios.scripted []).

(** "allows symlinks within workspace": the real path is
    [${workspace}/actual/nested/package.json]. *)
Definition withinEnv : Env :=
  cwdRunner
    (fun _ => Gave ["home"; "runner"; "work"; "app"; "actual"; "nested";
                    "package.json"])
    (Gave (mkStats true false))
    (Gave (mkReadResult [("lodash", "^4.0.0")] "npm" "package.json"))
    (Scenarios.scripted
       [Gave (mkScanResult 1 0 0 0 1 [mkPackageHealth "lodash" 90 LOW None]
                None None None None)]).

(** A real path that leaves the workspace and comes back:
    [/repo/sub/../../repo/pkg]. *)
Definition roundaboutEnv : Env :=
  Scenarios.runner (fun _ => Gave ["repo"; "sub"; ".."; ".."; "repo"; "pkg"])
    Scenarios.directory (Scenarios.npm []) (Scenarios.scripted []).

(** "throws error when no dependency file found". *)
Definition missingEnv : Env :=
  Scenarios.runner Scenarios.noSymlink Scenarios.directory
    (Raised (DependencyParseError "No dependency file found in /repo/missing"))
    (Scenarios.scripted []).

(** A path that is neither a file nor a directory. *)
Definition socketEnv : Env :=
  Scenarios.runner Scenarios.noSymlink (Gave (mkStats false false))
    (Scenarios.npm (Scenarios.numbered 1)) (Scenarios.scripted []).

(** A directory of the workspace whose name begins with two dots. *)
Definition dottedEnv : Env :=
  Scenarios.runner (fun _ => Gave ["repo"; "..cache"]) Scenarios.directory
    (Scenarios.npm (Scenarios.numbered 1)) (Scenarios.scripted []).

(** Thirty dependencies, and a service that is down for both chunks. *)
Definition allDownEnv : Env :=
  Scenarios.runner Scenarios.noSymlink Scenarios.directory
    (Scenarios.npm (Scenarios.numbered 30))
    (Scenarios.scripted [Raised Scenarios.serverError;
                         Raised Scenarios.serverError]).

End Observations.

(* ===================================================================== *)
(** * Facts *)
(* ===================================================================== *)

Module NodePathFacts.
Import NodePath.

(** [inside] is the prefix relation on segments. *)
Lemma inside_prefix (dir p : Path) :
  inside dir p = true <-> exists rest, p = (dir ++ rest)%list.
Proof.
  revert p; induction dir as [|d dir IH]; intros p; simpl.
  - split; [exists p; reflexivity | trivial].
  - destruct p as [|s p].
    + split; [discriminate | intros [rest H]; discriminate].
    + rewrite andb_true_iff, String.eqb_eq, IH. split.
      * intros [-> [rest ->]]. exists rest. reflexivity.
      * intros [rest H]. injection H as -> ->. split; eauto.
Qed.

Lemma joined_parent_first (rest : list string) :
  String.prefix ".." (String.concat "/" (".." :: rest)) = true.
Proof. destruct rest; reflexivity. Qed.

(** A path that is not inside [dir] is reached from [dir] by going up
    first. *)
Lemma relativeSegments_of_outside (dir p : Path) :
  inside dir p = false ->
  String.prefix ".." (String.concat "/" (relativeSegments dir p)) = true.
Proof.
  revert p; induction dir as [|d dir IH]; intros p H.
  - discriminate.
  - destruct p as [|s p]; simpl in *.
    + apply joined_parent_first.
    + destruct (String.eqb d s); simpl in H.
      * apply IH, H.
      * apply joined_parent_first.
Qed.

Lemma relative_of_outside (dir p : Path) :
  inside (normalize dir) (normalize p) = false ->
  startsWith (relative dir p) ".." = true.
Proof. apply relativeSegments_of_outside. Qed.

(** What the guard of line 62 lets through is, once resolved, inside the
    resolved workspace. *)
Lemma guard_passed (dir p : Path) :
  startsWith (relative dir p) ".." || isAbsolute (relative dir p) = false ->
  inside (normalize dir) (normalize p) = true.
Proof.
  intros H. apply orb_false_elim in H as [H _].
  destruct (inside (normalize dir) (normalize p)) eqn:E; [reflexivity|].
  rewrite (relative_of_outside _ _ E) in H. discriminate.
Qed.

Lemma normalizeOnto_kept (segments above : Path) :
  Forall kept above -> Forall kept (normalizeOnto above segments).
Proof.
  revert above; induction segments as [|s rest IH]; intros above H; simpl.
  - apply Forall_rev, H.
  - destruct (String.eqb_spec s EmptyString) as [->|He]; [apply IH, H|].
    destruct (String.eqb_spec s ".") as [->|Hd]; [apply IH, H|].
    simpl. destruct (String.eqb_spec s "..") as [->|Hp].
    + apply IH. destruct above; [constructor | inversion H; assumption].
    + apply IH. constructor; [repeat split; assumption | exact H].
Qed.

(** A normalised path has no empty segment, no ["."] and no [".."]. *)
Lemma normalize_kept (p : Path) : Forall kept (normalize p).
Proof. apply normalizeOnto_kept. constructor. Qed.

Lemma normalizeOnto_of_kept (segments above : Path) :
  Forall kept segments ->
  normalizeOnto above segments = (rev above ++ segments)%list.
Proof.
  revert above; induction segments as [|s rest IH]; intros above H; simpl.
  - symmetry. apply app_nil_r.
  - inversion H as [|? ? (He & Hd & Hp) Hrest]; subst.
    destruct (String.eqb_spec s EmptyString); [congruence|].
    destruct (String.eqb_spec s "."); [congruence|].
    simpl. destruct (String.eqb_spec s ".."); [congruence|].
    rewrite (IH _ Hrest). simpl. rewrite <- app_assoc. reflexivity.
Qed.

(** Normalising leaves a path alone when there is nothing to resolve in
    it, as in what [realpathSync] really returns. *)
Lemma normalize_of_kept (p : Path) : Forall kept p -> normalize p = p.
Proof. intros H. apply (normalizeOnto_of_kept p [] H). Qed.

Lemma normalize_idempotent (p : Path) : normalize (normalize p) = normalize p.
Proof. apply normalize_of_kept, normalize_kept. Qed.

(** [path.relative] on targets that are not normalised, from [/repo]: out
    through a subdirectory, in from elsewhere, and through a dotted name
    and back. *)
Lemma relative_resolves_target :
  relative ["repo"] ["repo"; "sub"; ".."; ".."; "secrets"; "config"]
  = "../secrets/config"
  /\ relative ["repo"] ["x"; ".."; "repo"; "a"] = "a"
  /\ relative ["repo"] ["repo"; "..x"; ".."; "a"] = "a"
  /\ relative ["repo"; ""; "."] ["repo"] = EmptyString.
Proof. repeat split. Qed.

End NodePathFacts.

Module ApiClientFacts.
Import ApiClient.

Lemma other_4xx_unknown (s : Z) :
  (400 <= s < 500)%Z ->
  s <> 400%Z -> s <> 401%Z -> s <> 403%Z -> s <> 404%Z -> s <> 429%Z ->
  classify (HttpStatus s) = unknown_error.
Proof.
  intros R H0 H1 H3 H4 H9. unfold classify.
  repeat match goal with
         | |- context [(s =? ?k)%Z] =>
             destruct (Z.eqb_spec s k); [congruence|]
         end.
  replace (500 <=? s)%Z with false by (symmetry; apply Z.leb_gt; lia).
  reflexivity.
Qed.

Lemma any_5xx_server_error (s : Z) :
  (500 <= s <= 599)%Z -> classify (HttpStatus s) = server_error.
Proof.
  intros R. unfold classify.
  repeat match goal with
         | |- context [(s =? ?k)%Z] =>
             destruct (Z.eqb_spec s k); [lia|]
         end.
  replace (500 <=? s)%Z with true by (symmetry; apply Z.leb_le; lia).
  replace (s <=? 599)%Z with true by (symmetry; apply Z.leb_le; lia).
  reflexivity.
Qed.

(** C4. The classifier is a total function of its input, so it yields
    exactly one code for every input and cannot throw; its values are:
    400 invalid_request, 401 unauthorized, 403 forbidden, 404 not_found,
    429 rate_limited, every 5xx server_error, no response network_error,
    a deadline abort timeout, and every other 4xx (418 among them)
    unknown_error. *)
Theorem classify_total_mapping :
  (forall f, exists! c, classify f = c)
  /\ classify (HttpStatus 400) = invalid_request
  /\ classify (HttpStatus 401) = unauthorized
  /\ classify (HttpStatus 403) = forbidden
  /\ classify (HttpStatus 404) = not_found
  /\ classify (HttpStatus 429) = rate_limited
  /\ (forall s, (500 <= s <= 599)%Z ->
        classify (HttpStatus s) = server_error)
  /\ classify NoResponse = network_error
  /\ classify TimeoutAbort = timeout
  /\ (forall s, (400 <= s < 500)%Z ->
        s <> 400%Z -> s <> 401%Z -> s <> 403%Z -> s <> 404%Z ->
        s <> 429%Z ->
        classify (HttpStatus s) = unknown_error)
  /\ classify (HttpStatus 418) = unknown_error.
Proof.
  split.
  { intros f. exists (classify f). split; [reflexivity | auto]. }
  repeat split; try reflexivity.
  - apply any_5xx_server_error.
  - apply other_4xx_unknown.
Qed.

(** The mapping at work: 503 is a server error, 451 is unknown. *)
Lemma classify_total_mapping_witness :
  classify (HttpStatus 503) = server_error
  /\ classify (HttpStatus 451) = unknown_error.
Proof.
  destruct classify_total_mapping
    as (_ & _ & _ & _ & _ & _ & H5 & _ & _ & H4 & _).
  split; [apply H5; lia | apply H4; lia].
Defined.

Section Retry.
Context {Body : Type}.
Variable net : nat -> Attempt Body.
Variable jitter : nat -> Z.

Lemma attempts_last (n : nat) (e : ApiClientError) :
  settle (net n) = Failed e ->
  attempts net jitter 0 n = (Failed e, [Fetch n]).
Proof. intros H. simpl. rewrite H. reflexivity. Qed.

Lemma attempts_retry (k n : nat) :
  failsRetryably (net n) ->
  attempts net jitter (S k) n =
  (fst (attempts net jitter k (S n)),
   Fetch n :: Sleep (backoff jitter n)
   :: snd (attempts net jitter k (S n))).
Proof.
  intros (e & He & Hr). simpl. rewrite He, Hr.
  destruct (attempts net jitter k (S n)). reflexivity.
Qed.

(** Under persistent retryable failure the loop spends every retry:
    [k] retries make [k + 1] fetches, and the error is that of the last
    attempt. *)
Lemma attempts_exhaust (k n : nat) :
  (forall i, n <= i <= n + k -> failsRetryably (net i)) ->
  exists e,
    settle (net (n + k)) = Failed e
    /\ fst (attempts net jitter k n) = Failed e
    /\ fetchCount (snd (attempts net jitter k n)) = S k.
Proof.
  revert n; induction k as [|k IH]; intros n H.
  - destruct (H n ltac:(lia)) as (e & He & _).
    exists e. rewrite Nat.add_0_r, (attempts_last _ _ He). auto.
  - rewrite attempts_retry by (apply H; lia).
    destruct (IH (S n)) as (e & He & Hf & Hc).
    { intros i Hi. apply H. lia. }
    exists e. replace (n + S k) with (S n + k) by lia.
    repeat split; auto. simpl. unfold fetchCount in *. simpl.
    rewrite Hc. reflexivity.
Qed.

Lemma attempts_no_retry (k n : nat) (e : ApiClientError) :
  settle (net n) = Failed e -> retryable (code e) = false ->
  attempts net jitter k n = (Failed e, [Fetch n]).
Proof.
  intros He Hr. destruct k; simpl; rewrite He; [reflexivity|].
  rewrite Hr. reflexivity.
Qed.

End Retry.

(** C3. With [maxRetries = 3]: when every attempt fails with a retryable
    classification (rate_limited, server_error, network_error, timeout),
    the executor makes exactly 4 fetches and fails with the
    [ApiClientError] of the last attempt; when the first attempt answers
    with a status that is not retryable (400, 401, 403, 404 or any other
    4xx but 429), it makes exactly 1 fetch, does not retry, and fails
    with that status's [ApiClientError]. *)
Theorem retry_count (Body : Type) (net : nat -> Attempt Body)
    (jitter : nat -> Z) :
  (forall c,
      retryable c = true <->
      c = rate_limited \/ c = server_error \/ c = network_error
      \/ c = timeout)
  /\
  ((forall n, 1 <= n <= 4 -> failsRetryably (net n)) ->
   exists e,
     settle (net 4) = Failed e
     /\ fst (execute net jitter 3) = Failed e
     /\ fetchCount (snd (execute net jitter 3)) = 4)
  /\ (forall s text body,
        net 1 = HttpFailure s text body ->
        (400 <= s < 500)%Z -> s <> 429%Z ->
        execute net jitter 3 =
        (Failed (mkApiClientError (extractMessage text body)
                   (classify (HttpStatus s)) (Some s)),
         [Fetch 1])
        /\ fetchCount (snd (execute net jitter 3)) = 1).
Proof.
  split; [|split].
  - intros c. destruct c; simpl; split; intros H;
      try discriminate; try reflexivity; auto;
      destruct H as [H|[H|[H|H]]]; discriminate H.
  - intros H. unfold execute.
    destruct (attempts_exhaust net jitter 3 1) as (e & He & Hf & Hc).
    { intros i Hi. apply H. lia. }
    exists e. auto.
  - intros s text body Hn Hs H429. unfold execute.
    assert (Hr : retryable (classify (HttpStatus s)) = false).
    { unfold classify.
      repeat match goal with
             | |- context [(s =? ?k)%Z] =>
                 destruct (Z.eqb_spec s k); [try reflexivity; lia|]
             end.
      replace (500 <=? s)%Z with false by (symmetry; apply Z.leb_gt; lia).
      reflexivity. }
    rewrite (attempts_no_retry net jitter 3 1
               (mkApiClientError (extractMessage text body)
                  (classify (HttpStatus s)) (Some s))).
    + split; reflexivity.
    + rewrite Hn. reflexivity.
    + exact Hr.
Qed.

(** The two runs of retry.test.ts: four fetches against a server that
    stays down, one fetch on a 400. *)
Lemma retry_count_witness :
  (exists e,
     settle (Scenarios.alwaysDown 4) = Failed e
     /\ fst (execute Scenarios.alwaysDown Scenarios.noJitter 3) = Failed e
     /\ fetchCount
          (snd (execute Scenarios.alwaysDown Scenarios.noJitter 3)) = 4)
  /\ fetchCount
       (snd (execute Scenarios.badRequest Scenarios.noJitter 3)) = 1.
Proof.
  split.
  - apply (proj1 (proj2 (retry_count unit Scenarios.alwaysDown
                           Scenarios.noJitter))).
    intros n _. eexists. split; reflexivity.
  - apply (proj2 (proj2 (retry_count unit Scenarios.badRequest
                           Scenarios.noJitter))
             400%Z "Bad Request"
             (Some (mkErrorBody None (Some "Invalid request"))));
      [reflexivity | lia | lia].
Defined.

End ApiClientFacts.

Module ScannerFacts.
Import NodePath Scanner Reference.
Local Open Scope scanner_scope.

(** ** Objects and slices *)

Lemma assign_fresh (o : Dependencies) (k v : string) :
  ~ In k (map fst o) -> assign o k v = (o ++ [(k, v)])%list.
Proof.
  induction o as [|[k' v'] o IH]; simpl; intros H; [reflexivity|].
  destruct (String.eqb_spec k' k) as [->|_].
  - exfalso. apply H. left. reflexivity.
  - rewrite IH by tauto. reflexivity.
Qed.

Lemma fold_assign_distinct (entries o : Dependencies) :
  NoDup (map fst (o ++ entries)) ->
  fold_left (fun o kv => assign o (fst kv) (snd kv)) entries o
  = (o ++ entries)%list.
Proof.
  revert o; induction entries as [|[k v] entries IH]; intros o H; simpl.
  - symmetry. apply app_nil_r.
  - rewrite assign_fresh.
    + rewrite IH; rewrite <- app_assoc; [reflexivity | exact H].
    + rewrite map_app in H. simpl in H.
      apply NoDup_remove_2 in H. intros Hin. apply H.
      apply in_or_app. left. exact Hin.
Qed.

(** Building an object from entries with distinct keys gives these
    entries back. *)
Lemma fromEntries_distinct (entries : Dependencies) :
  NoDup (map fst entries) -> fromEntries entries = entries.
Proof. intros H. apply (fold_assign_distinct entries []), H. Qed.

Lemma NoDup_keys_firstn (n : nat) (l : Dependencies) :
  NoDup (map fst l) -> NoDup (map fst (firstn n l)).
Proof.
  intros H. rewrite <- (firstn_skipn n l), map_app in H.
  apply NoDup_app_remove_r in H. exact H.
Qed.

Lemma NoDup_keys_skipn (n : nat) (l : Dependencies) :
  NoDup (map fst l) -> NoDup (map fst (skipn n l)).
Proof.
  intros H. rewrite <- (firstn_skipn n l), map_app in H.
  apply NoDup_app_remove_l in H. exact H.
Qed.

(** The slice the loop takes at index [i] is the next [BATCH_SIZE]
    entries. *)
Lemma slice_batch {A} (l : list A) (i : nat) :
  slice l i (Nat.min (i + BATCH_SIZE) (List.length l))
  = firstn BATCH_SIZE (skipn i l).
Proof.
  unfold slice.
  destruct (Nat.le_gt_cases (i + BATCH_SIZE) (List.length l)) as [H|H].
  - rewrite Nat.min_l by exact H. f_equal. lia.
  - rewrite Nat.min_r by lia.
    rewrite !firstn_all2; try reflexivity; rewrite length_skipn; lia.
Qed.

(** ** Chunks *)

Section Chunks.
Context {A : Type}.
Variable capacity : nat.
Hypothesis capacity_positive : 0 < capacity.

Lemma chunksOf_fuel (fuel fuel' : nat) (l : list A) :
  List.length l <= fuel -> List.length l <= fuel' ->
  chunksOf fuel capacity l = chunksOf fuel' capacity l.
Proof.
  revert fuel' l; induction fuel as [|fuel IH]; intros fuel' l H H'.
  - destruct l; [|simpl in H; lia]. destruct fuel'; reflexivity.
  - destruct l as [|a l]; [destruct fuel'; reflexivity|].
    destruct fuel' as [|fuel']; [simpl in H'; lia|].
    simpl chunksOf. f_equal.
    simpl List.length in H, H'.
    apply IH; rewrite length_skipn; simpl List.length; lia.
Qed.

Lemma chunks_nil : chunks capacity (@nil A) = [].
Proof. reflexivity. Qed.

Lemma chunks_cons (l : list A) :
  l <> [] ->
  chunks capacity l
  = firstn capacity l :: chunks capacity (skipn capacity l).
Proof.
  intros H. destruct l as [|a l]; [congruence|].
  unfold chunks at 1. simpl List.length. simpl chunksOf. f_equal.
  apply chunksOf_fuel; rewrite length_skipn; simpl List.length; lia.
Qed.

(** Induction along the chunks of a list. *)
Lemma chunks_ind (P : list A -> Prop) :
  P [] ->
  (forall l, l <> [] -> P (skipn capacity l) -> P l) ->
  forall l, P l.
Proof.
  intros Hnil Hstep l.
  remember (List.length l) as n eqn:Hn.
  revert l Hn. induction n as [n IH] using lt_wf_ind. intros l Hn.
  destruct l as [|a l]; [exact Hnil|].
  apply Hstep; [discriminate|].
  apply (IH (List.length (skipn capacity (a :: l)))); [|reflexivity].
  rewrite length_skipn. subst n. simpl List.length. lia.
Qed.

(** The chunks, put back together, are the entries in their order. *)
Lemma chunks_concat (l : list A) : List.concat (chunks capacity l) = l.
Proof.
  induction l as [|l Hne IH] using chunks_ind; [reflexivity|].
  rewrite chunks_cons by exact Hne. simpl. rewrite IH.
  apply firstn_skipn.
Qed.

(** No chunk is empty, none exceeds the capacity. *)
Lemma chunks_bounded (l : list A) :
  Forall (fun c => 0 < List.length c <= capacity) (chunks capacity l).
Proof.
  induction l as [|l Hne IH] using chunks_ind; [constructor|].
  rewrite chunks_cons by exact Hne. constructor; [|exact IH].
  rewrite length_firstn. destruct l; [congruence|].
  simpl List.length. lia.
Qed.

(** Every chunk but the last is full. *)
Lemma chunks_full (l : list A) (k : nat) :
  S k < List.length (chunks capacity l) ->
  List.length (nth k (chunks capacity l) []) = capacity.
Proof.
  revert k; induction l as [|l Hne IH] using chunks_ind; intros k H.
  - simpl in H. lia.
  - rewrite chunks_cons in * by exact Hne. simpl in H.
    destruct k as [|k]; simpl.
    + rewrite length_firstn.
      destruct (Nat.le_gt_cases capacity (List.length l)); [lia|].
      rewrite skipn_all2 in H by lia. simpl in H. lia.
    + apply IH. lia.
Qed.

(** There are [ceil (length / capacity)] chunks. *)
Lemma chunks_count (l : list A) :
  List.length (chunks capacity l) = ceilDiv (List.length l) capacity.
Proof.
  unfold ceilDiv.
  induction l as [|l Hne IH] using chunks_ind.
  - simpl. symmetry. apply Nat.div_small. lia.
  - rewrite chunks_cons by exact Hne. simpl. rewrite IH, length_skipn.
    assert (0 < List.length l)
      by (destruct l; [congruence|simpl List.length; lia]).
    destruct (Nat.le_gt_cases capacity (List.length l)) as [Hc|Hc].
    + replace (List.length l + (capacity - 1))
        with (List.length l - capacity + (capacity - 1) + 1 * capacity)
        by lia.
      rewrite Nat.div_add by lia. lia.
    + replace (List.length l - capacity) with 0 by lia.
      replace (List.length l + (capacity - 1))
        with (List.length l - 1 + 1 * capacity) by lia.
      rewrite Nat.div_add by lia.
      rewrite !Nat.div_small by lia. reflexivity.
Qed.

End Chunks.

(** ** The batch loop against the failure policy *)

Section Loop.
Variable env : Env.
Variable apiKey : string.
Variable ecosystem : Ecosystem.
Variable depEntries : Dependencies.

Lemma batchRequests_done (i : nat) :
  List.length depEntries <= i ->
  batchRequests ecosystem (skipn i depEntries) = [].
Proof. intros H. rewrite skipn_all2 by exact H. reflexivity. Qed.

Lemma batchRequests_next (i : nat) :
  i < List.length depEntries ->
  batchRequests ecosystem (skipn i depEntries)
  = (fromEntries (firstn BATCH_SIZE (skipn i depEntries)), ecosystem)
    :: batchRequests ecosystem (skipn (i + BATCH_SIZE) depEntries).
Proof.
  intros H. unfold batchRequests.
  rewrite chunks_cons.
  - rewrite map_cons, skipn_skipn, (Nat.add_comm BATCH_SIZE i).
    reflexivity.
  - unfold BATCH_SIZE. lia.
  - intros E. apply (f_equal (@List.length _)) in E.
    rewrite length_skipn in E. simpl in E. lia.
Qed.

(** The loop of lines 131-159 ends as the policy says, having issued
    exactly the requests the policy counts, in order; it reads no
    manifest, and it does not run out of fuel. *)
Lemma batchLoop_policy (fuel i : nat) (st : BatchState) (w : World) :
  List.length depEntries - i <= fuel ->
  let todo := batchRequests ecosystem (skipn i depEntries) in
  let verdict :=
    policy (answers (PkgWatchClient env apiKey) (requests w) todo) st in
  exists w',
    batchLoop fuel env apiKey ecosystem depEntries i st w
    = (fst verdict, w')
    /\ requests w' = (requests w ++ firstn (snd verdict) todo)%list
    /\ reads w' = reads w.
Proof.
  revert i st w; induction fuel as [|fuel IH]; intros i st w Hfuel;
    cbv zeta; simpl batchLoop;
    destruct (Nat.ltb_spec i (List.length depEntries)) as [Hi|Hi];
    try lia.
  - rewrite batchRequests_done by exact Hi. simpl.
    exists w. rewrite app_nil_r. auto.
  - rewrite batchRequests_next by exact Hi.
    cbv [bind batchTurn core_info logged tryCatch scan ret throw
         core_warning].
    rewrite slice_batch. cbn [requests reads log answers policy].
    set (rq := (fromEntries (firstn BATCH_SIZE (skipn i depEntries)),
                ecosystem)).
    destruct (PkgWatchClient env apiKey (requests w) rq) as [r|e] eqn:Ha.
    + match goal with
      | |- context [batchLoop fuel _ _ _ _ ?j ?s ?v] =>
          destruct (IH j s v) as (w' & Hrun & Hreq & Hreads)
      end.
      { unfold BATCH_SIZE. lia. }
      cbv zeta in Hrun, Hreq. cbn [requests reads] in Hrun, Hreq, Hreads.
      unfold absorb.
      destruct (policy _ _) as [o n]. cbn [fst snd firstn] in *.
      exists w'. rewrite Hrun, Hreq, Hreads, <- app_assoc. auto.
    + unfold countFailure.
      destruct (abortsScan e); cbv beta iota; cbn [requests reads log].
      * eexists. cbn [fst snd firstn requests reads]. auto.
      * match goal with
        | |- context [batchLoop fuel _ _ _ _ ?j ?s ?v] =>
            destruct (IH j s v) as (w' & Hrun & Hreq & Hreads)
        end.
        { unfold BATCH_SIZE. lia. }
        cbv zeta in Hrun, Hreq.
        cbn [requests reads] in Hrun, Hreq, Hreads.
        destruct (policy _ _) as [o n]. cbn [fst snd firstn] in *.
        exists w'. rewrite Hrun, Hreq, Hreads, <- app_assoc. auto.
  - rewrite batchRequests_done by exact Hi. simpl.
    exists w. rewrite app_nil_r. auto.
Qed.

End Loop.

(** ** The failure policy *)

Lemma abortsScan_fatal (e : Exn) : abortsScan e = true <-> scanFatal e.
Proof.
  unfold scanFatal. destruct e as [m|a|m|t]; simpl; split;
    try discriminate; try (intros (x & Hx & _); discriminate).
  - destruct (ApiClient.code a) eqn:E; try discriminate;
      intros _; exists a; auto.
  - intros (x & Hx & Hc). injection Hx as <-.
    destruct Hc as [-> | [-> | ->]]; reflexivity.
Qed.

Lemma abortsScan_goesOn (e : Exn) :
  abortsScan e = false <-> goesOn (Raised e).
Proof.
  simpl. rewrite <- abortsScan_fatal.
  destruct (abortsScan e); split; congruence.
Qed.

(** When no answer is scan-fatal the policy returns, after as many
    requests as there are chunks, the merge of the answers. *)
Lemma policy_goes_on (replies : list (Answer ScanResult)) :
  Forall goesOn replies ->
  forall st,
    policy replies st
    = (Returned
         (mkBatchState
            (allPackages st ++ flat_map packagesOf replies)
            (notFound st ++ flat_map notFoundOf replies)
            (failedBatches st + List.length (filter failed replies))),
       List.length replies).
Proof.
  induction 1 as [|a replies Ha _ IH]; intros st.
  - simpl. rewrite !app_nil_r, Nat.add_0_r. destruct st; reflexivity.
  - destruct a as [r|e]; simpl policy.
    + rewrite IH. unfold absorb; simpl.
      rewrite <- app_assoc.
      destruct (not_found r); rewrite <- ?app_assoc; reflexivity.
    + apply abortsScan_goesOn in Ha. rewrite Ha, IH. simpl.
      rewrite Nat.add_succ_r. reflexivity.
Qed.

(** The first scan-fatal answer ends the scan with its error, and no
    request follows it. *)
Lemma policy_aborts (replies : list (Answer ScanResult)) :
  forall st k e,
    nth_error replies k = Some (Raised e) ->
    scanFatal e ->
    (forall j a, j < k -> nth_error replies j = Some a -> goesOn a) ->
    policy replies st = (Threw e, S k).
Proof.
  induction replies as [|a replies IH]; intros st k e Hk He Hbefore.
  - destruct k; discriminate.
  - destruct k as [|k]; simpl in Hk.
    + injection Hk as ->. simpl.
      apply abortsScan_fatal in He. rewrite He. reflexivity.
    + assert (Ha : goesOn a) by (apply (Hbefore 0); [lia | reflexivity]).
      assert (Hrest : forall j b, j < k -> nth_error replies j = Some b
                                  -> goesOn b).
      { intros j b Hj Hb. apply (Hbefore (S j)); [lia | exact Hb]. }
      destruct a as [r|e0]; simpl policy.
      * rewrite (IH _ k e Hk He Hrest). reflexivity.
      * apply abortsScan_goesOn in Ha. rewrite Ha.
        rewrite (IH _ k e Hk He Hrest). reflexivity.
Qed.

Lemma policy_returned (replies : list (Answer ScanResult)) :
  forall st st',
    fst (policy replies st) = Returned st' -> Forall goesOn replies.
Proof.
  induction replies as [|a replies IH]; intros st st' H; [constructor|].
  destruct a as [r|e]; simpl in H.
  - destruct (policy replies (absorb st r)) as [o n] eqn:E.
    constructor; [exact I|]. apply (IH (absorb st r) st').
    rewrite E. exact H.
  - destruct (abortsScan e) eqn:Ea; [discriminate|].
    destruct (policy replies (countFailure st)) as [o n] eqn:E.
    constructor; [apply abortsScan_goesOn, Ea|].
    apply (IH (countFailure st) st'). rewrite E. exact H.
Qed.

Lemma policy_threw (replies : list (Answer ScanResult)) :
  forall st e, fst (policy replies st) = Threw e -> scanFatal e.
Proof.
  induction replies as [|a replies IH]; intros st e H; [discriminate|].
  destruct a as [r|e0]; simpl in H.
  - destruct (policy replies (absorb st r)) as [o n] eqn:E.
    apply (IH (absorb st r)). rewrite E. exact H.
  - destruct (abortsScan e0) eqn:Ea.
    + injection H as <-. apply abortsScan_fatal, Ea.
    + destruct (policy replies (countFailure st)) as [o n] eqn:E.
      apply (IH (countFailure st)). rewrite E. exact H.
Qed.

Lemma policy_fuelled (replies : list (Answer ScanResult)) :
  forall st, fst (policy replies st) <> OutOfFuel.
Proof.
  induction replies as [|a replies IH]; intros st; [discriminate|].
  destruct a as [r|e]; simpl.
  - specialize (IH (absorb st r)).
    destruct (policy replies (absorb st r)). exact IH.
  - destruct (abortsScan e); [discriminate|].
    specialize (IH (countFailure st)).
    destruct (policy replies (countFailure st)). exact IH.
Qed.

Lemma answers_length client (todo : list Request) :
  forall history,
    List.length (answers client history todo) = List.length todo.
Proof.
  induction todo as [|rq todo IH]; intros history; simpl; auto.
Qed.

(** ** The three paths of lines 98-206 *)

Section Paths.
Variable env : Env.
Variable apiKey : string.
Variable deps : Dependencies.
Variable eco : Ecosystem.
Variable fmt : string.

(** No dependencies: the zero result, and nothing but a log line. *)
Lemma scanRead_empty (w : World) :
  deps = [] ->
  exists w',
    scanRead env apiKey deps eco fmt w
    = (Returned
         (mkScanResultWithMeta
            (mkScanResult 0 0 0 0 0 [] None None None None) fmt eco),
       w')
    /\ requests w' = requests w /\ reads w' = reads w.
Proof. intros ->. eexists. split; [reflexivity | auto]. Qed.

(** At most [BATCH_SIZE] dependencies: one request, answered. *)
Lemma scanRead_single (w : World) :
  0 < List.length deps <= BATCH_SIZE ->
  exists w',
    scanRead env apiKey deps eco fmt w
    = (match PkgWatchClient env apiKey (requests w) (deps, eco) with
       | Gave r => Returned (mkScanResultWithMeta r fmt eco)
       | Raised (ApiClientError e) => Threw (ApiClientError e)
       | Raised other =>
           Threw (Error ("Failed to scan dependencies: "
                         ++ messageOf other))
       end, w')
    /\ requests w' = (requests w ++ [(deps, eco)])%list
    /\ reads w' = reads w.
Proof.
  intros [Hpos Hle]. unfold scanRead.
  destruct (Nat.eqb_spec (List.length deps) 0) as [E|_]; [lia|].
  destruct (Nat.leb_spec (List.length deps) BATCH_SIZE) as [_|E]; [|lia].
  cbv [bind core_info logged tryCatch scan ret throw].
  cbn [requests reads log].
  destruct (PkgWatchClient env apiKey (requests w) (deps, eco))
    as [r|[m|e|m|t]]; eexists; (split; [reflexivity|]); auto.
Qed.

(** More than [BATCH_SIZE] dependencies: the loop, then the
    aggregate. *)
Lemma scanRead_batches (w : World) :
  BATCH_SIZE < List.length deps ->
  let todo := batchRequests eco deps in
  let verdict :=
    policy (answers (PkgWatchClient env apiKey) (requests w) todo)
      (mkBatchState [] [] 0) in
  exists w',
    scanRead env apiKey deps eco fmt w
    = (match fst verdict with
       | Returned st =>
           Returned (mkScanResultWithMeta (aggregate st) fmt eco)
       | Threw e => Threw e
       | OutOfFuel => OutOfFuel
       end, w')
    /\ requests w' = (requests w ++ firstn (snd verdict) todo)%list
    /\ reads w' = reads w
    /\ (forall st,
          fst verdict = Returned st -> 0 < failedBatches st ->
          In (Warning (toString (failedBatches st)
                       ++ " batch(es) failed. Results may be incomplete."))
            (log w')).
Proof.
  intros Hlen. cbv zeta. unfold scanRead.
  destruct (Nat.eqb_spec (List.length deps) 0) as [E|_]; [lia|].
  destruct (Nat.leb_spec (List.length deps) BATCH_SIZE) as [E|_]; [lia|].
  cbv [bind core_info logged]. cbv beta iota.
  match goal with
  | |- context [batchLoop ?f _ _ _ _ 0 ?s ?v] =>
      destruct (batchLoop_policy env apiKey eco deps f 0 s v)
        as (w1 & Hrun & Hreq & Hreads); [lia|]
  end.
  cbv zeta in Hrun, Hreq. cbn [skipn requests reads] in Hrun, Hreq, Hreads.
  rewrite Hrun.
  destruct (fst (policy _ _)) as [st| |] eqn:Ev.
  - destruct (Nat.ltb_spec 0 (failedBatches st)) as [Hf|Hf].
    + cbv [core_warning logged ret]. eexists.
      split; [reflexivity|]. cbn [requests reads log].
      repeat split; auto.
      intros st' Est _. injection Est as <-.
      apply in_or_app. right. left. reflexivity.
    + cbv [ret]. exists w1. repeat split; auto.
      intros st' Est Hpos. injection Est as <-. lia.
  - exists w1. repeat split; auto. discriminate.
  - exists w1. repeat split; auto. discriminate.
Qed.

End Paths.

(** ** Lines 42-96 *)

Ltac cases_of_read :=
  repeat match goal with
         | |- context [if ?b then _ else _] => destruct b eqn:?
         | |- context [match ?a with Gave _ => _ | Raised _ => _ end] =>
             destruct a eqn:?
         | |- context [match ?e with
                       | DependencyParseError _ => _
                       | _ => _ end] => destruct e eqn:?
         | _ => progress cbv beta iota
         end.

(** What reading the manifest does to the world: no request, no log
    line; at most one manifest read, and then of the real path, which
    resolves to a path inside the resolved workspace. *)
Lemma readManifest_effects (env : Env) (basePath : string)
    (includeDev : bool) (w : World) :
  forall o w',
    readManifest env basePath includeDev w = (o, w') ->
    requests w' = requests w /\ log w' = log w
    /\ (reads w' = reads w
        \/ exists realPath,
             existsSync env (resolve env basePath) = true
             /\ realpathSync env (resolve env basePath) = Gave realPath
             /\ inside (normalize (resolve env (workspaceOf env)))
                  (normalize realPath) = true
             /\ (reads w' = (reads w ++ [ReadFile realPath includeDev])%list
                 \/ reads w'
                    = (reads w ++ [ReadDirectory realPath includeDev])%list)).
Proof.
  intros o w'. unfold readManifest.
  cbv [tryCatch bind noteRead call ret throw]. cases_of_read.
  all: intros H; injection H as <- <-; cbn [requests reads log].
  all: repeat split; auto.
  all: right; eexists; repeat split;
    [ apply negb_false_iff; eassumption
    | apply NodePathFacts.guard_passed; eassumption
    | auto ].
Qed.

Section Whole.
Variable env : Env.
Variables apiKey basePath : string.
Variable includeDev : bool.
Variable ecosystemOverride : option Ecosystem.

(** Once the manifest is read, [scanDependencies] is [scanRead] on
    what was read, under the effective ecosystem. *)
Lemma scanDependencies_read (w w1 : World) (read : ReadResult) :
  readManifest env basePath includeDev w = (Returned read, w1) ->
  exists w2,
    scanDependencies env apiKey basePath includeDev ecosystemOverride w
    = scanRead env apiKey (dependencies read)
        (effectiveEcosystem ecosystemOverride read) (read_format read) w2
    /\ requests w2 = requests w1 /\ reads w2 = reads w1.
Proof.
  intros H. unfold scanDependencies, bind at 1. rewrite H.
  unfold effectiveEcosystem.
  destruct ecosystemOverride as [[|c override]|];
    cbv [bind ret core_debug logged]; eexists;
    (split; [reflexivity|]); auto.
Qed.

(** When reading the manifest throws, so does [scanDependencies], and
    nothing else happens. *)
Lemma scanDependencies_unread (w w1 : World) (e : Exn) :
  readManifest env basePath includeDev w = (Threw e, w1) ->
  scanDependencies env apiKey basePath includeDev ecosystemOverride w
  = (Threw e, w1).
Proof.
  intros H. unfold scanDependencies, bind at 1. rewrite H. reflexivity.
Qed.

Lemma readManifest_fuelled (w w1 : World) :
  readManifest env basePath includeDev w <> (OutOfFuel, w1).
Proof.
  unfold readManifest. cbv [tryCatch bind noteRead call ret throw].
  cases_of_read. all: discriminate.
Qed.

(** The three refusals of lines 46-66. *)
Lemma readManifest_missing (w : World) :
  existsSync env (resolve env basePath) = false ->
  readManifest env basePath includeDev w
  = (Threw (Error (("Path does not exist: "
                    ++ render (resolve env basePath))
                   ++ newline ++ newline ++ hint)), w).
Proof.
  intros H. unfold readManifest. cbv [tryCatch bind].
  rewrite H. reflexivity.
Qed.

Lemma readManifest_unresolved (w : World) (err : Exn) :
  existsSync env (resolve env basePath) = true ->
  realpathSync env (resolve env basePath) = Raised err ->
  readManifest env basePath includeDev w
  = (Threw (Error (("Cannot resolve path "
                    ++ render (resolve env basePath) ++ ": "
                    ++ messageOf err)
                   ++ newline ++ newline ++ hint)), w).
Proof.
  intros H1 H2. unfold readManifest. cbv [tryCatch bind].
  rewrite H1, H2. reflexivity.
Qed.

Lemma readManifest_escape (w : World) (realPath : Path) :
  existsSync env (resolve env basePath) = true ->
  realpathSync env (resolve env basePath) = Gave realPath ->
  inside (normalize (resolve env (workspaceOf env))) (normalize realPath)
  = false ->
  readManifest env basePath includeDev w
  = (Threw (Error (("Path resolves outside workspace via symlink: "
                    ++ render (resolve env basePath) ++ " -> "
                    ++ render realPath)
                   ++ newline ++ newline ++ hint)), w).
Proof.
  intros H1 H2 H3. unfold readManifest. cbv [tryCatch bind].
  rewrite H1, H2. cbv [negb call ret].
  rewrite (NodePathFacts.relative_of_outside _ _ H3).
  reflexivity.
Qed.

End Whole.

(** ** Aggregation *)

Lemma withRisk_partition (l : list PackageHealth) :
  (withRisk CRITICAL l + withRisk HIGH l + withRisk MEDIUM l
   + withRisk LOW l)%Z = Z.of_nat (List.length l).
Proof.
  unfold withRisk. induction l as [|p l IH]; [reflexivity|].
  simpl filter. destruct (risk_level p); simpl RiskLevel_eqb; cbv iota;
    simpl List.length; lia.
Qed.

Lemma withRisk_app (level : RiskLevel) (l1 l2 : list PackageHealth) :
  withRisk level (l1 ++ l2) = (withRisk level l1 + withRisk level l2)%Z.
Proof.
  unfold withRisk. rewrite filter_app, length_app. lia.
Qed.

(** Whatever the loop gathered, the aggregate of lines 189-195 satisfies
    the invariant. *)
Lemma aggregate_invariant (st : BatchState) :
  aggregationInvariant (aggregate st).
Proof.
  unfold aggregationInvariant, aggregate. simpl.
  split; [|reflexivity]. symmetry. apply withRisk_partition.
Qed.

Lemma assessmentOf_verified (p : PackageHealth) :
  String.eqb (assessmentOf p) "VERIFIED"
  = Assessment_eqb (countsAs p) VERIFIED.
Proof.
  unfold assessmentOf, countsAs, statedAssessment.
  destruct (data_quality p) as [[[a|]]|]; try reflexivity.
  cbn [assessment]. destruct a as [|ch a]; [reflexivity|].
  generalize (String ch a). intros s.
  destruct (String.eqb s "VERIFIED"); [reflexivity|].
  destruct (String.eqb s "PARTIAL"); reflexivity.
Qed.

Lemma assessmentOf_partial (p : PackageHealth) :
  String.eqb (assessmentOf p) "PARTIAL"
  = Assessment_eqb (countsAs p) PARTIAL.
Proof.
  unfold assessmentOf, countsAs, statedAssessment.
  destruct (data_quality p) as [[[a|]]|]; try reflexivity.
  cbn [assessment]. destruct a as [|ch a]; [reflexivity|].
  generalize (String ch a). intros s.
  destruct (String.eqb_spec s "VERIFIED") as [->|_]; [reflexivity|].
  destruct (String.eqb s "PARTIAL"); reflexivity.
Qed.

Lemma isHighRisk_highOrCritical (p : PackageHealth) :
  isHighRisk p = highOrCritical p.
Proof.
  unfold isHighRisk, highOrCritical. destruct (risk_level p); reflexivity.
Qed.

Lemma tally_countsAs (c : QualityCounters) (p : PackageHealth) :
  tally c p
  = mkQualityCounters
      (verifiedCount c + unit_of (Assessment_eqb (countsAs p) VERIFIED))
      (partialCount c + unit_of (Assessment_eqb (countsAs p) PARTIAL))
      (unverifiedCount c + unit_of (Assessment_eqb (countsAs p) UNVERIFIED))
      (verifiedRiskCount c
       + unit_of (Assessment_eqb (countsAs p) VERIFIED && highOrCritical p))
      (unverifiedRiskCount c
       + unit_of ((Assessment_eqb (countsAs p) PARTIAL
                   || Assessment_eqb (countsAs p) UNVERIFIED)
                  && highOrCritical p)).
Proof.
  unfold tally.
  rewrite assessmentOf_verified, assessmentOf_partial,
    isHighRisk_highOrCritical.
  destruct (countsAs p), (highOrCritical p); simpl;
    rewrite ?Nat.add_0_r, ?Nat.add_1_r; reflexivity.
Qed.

Lemma length_filter_cons {A} (f : A -> bool) (a : A) (l : list A) :
  List.length (filter f (a :: l)) = unit_of (f a) + List.length (filter f l).
Proof. simpl. destruct (f a); reflexivity. Qed.

(** The counting loop of lines 172-186 counts what its names say. *)
Lemma fold_tally (l : list PackageHealth) :
  forall c,
    fold_left tally l c
    = mkQualityCounters
        (verifiedCount c
         + List.length
             (filter (fun p => Assessment_eqb (countsAs p) VERIFIED) l))
        (partialCount c
         + List.length
             (filter (fun p => Assessment_eqb (countsAs p) PARTIAL) l))
        (unverifiedCount c
         + List.length
             (filter (fun p => Assessment_eqb (countsAs p) UNVERIFIED) l))
        (verifiedRiskCount c
         + List.length
             (filter (fun p => Assessment_eqb (countsAs p) VERIFIED
                               && highOrCritical p) l))
        (unverifiedRiskCount c
         + List.length
             (filter (fun p => (Assessment_eqb (countsAs p) PARTIAL
                                || Assessment_eqb (countsAs p) UNVERIFIED)
                               && highOrCritical p) l)).
Proof.
  induction l as [|p l IH]; intros c.
  - simpl. rewrite !Nat.add_0_r. destruct c; reflexivity.
  - simpl fold_left. rewrite IH, tally_countsAs.
    rewrite !length_filter_cons. cbn [verifiedCount partialCount
      unverifiedCount verifiedRiskCount unverifiedRiskCount].
    rewrite !Nat.add_assoc. reflexivity.
Qed.

(** ** The multi-chunk scan as a whole *)

Lemma scanDependencies_batches (env : Env) (apiKey basePath : string)
    (includeDev : bool) (ecosystemOverride : option Ecosystem)
    (read : ReadResult) (w1 : World) :
  readManifest env basePath includeDev start = (Returned read, w1) ->
  BATCH_SIZE < List.length (dependencies read) ->
  let eco := effectiveEcosystem ecosystemOverride read in
  let todo := batchRequests eco (dependencies read) in
  let verdict :=
    policy (answers (PkgWatchClient env apiKey) [] todo)
      (mkBatchState [] [] 0) in
  exists w,
    scanDependencies env apiKey basePath includeDev ecosystemOverride start
    = (match fst verdict with
       | Returned st =>
           Returned (mkScanResultWithMeta (aggregate st)
                       (read_format read) eco)
       | Threw e => Threw e
       | OutOfFuel => OutOfFuel
       end, w)
    /\ requests w = firstn (snd verdict) todo
    /\ reads w = reads w1
    /\ (forall st,
          fst verdict = Returned st -> 0 < failedBatches st ->
          In (Warning (toString (failedBatches st)
                       ++ " batch(es) failed. Results may be incomplete."))
            (log w)).
Proof.
  intros Hread Hlen eco todo verdict.
  destruct (scanDependencies_read env apiKey basePath includeDev
              ecosystemOverride _ _ _ Hread) as (w2 & -> & Hreq & Hreads).
  destruct (readManifest_effects _ _ _ _ _ _ Hread) as (Hreq1 & _).
  assert (Hnone : requests w2 = []) by (rewrite Hreq, Hreq1; reflexivity).
  destruct (scanRead_batches env apiKey (dependencies read) eco
              (read_format read) w2 Hlen)
    as (w & Hrun & Hreq2 & Hreads2 & Hlog).
  cbv zeta in Hrun, Hreq2, Hlog. rewrite Hnone in Hrun, Hreq2, Hlog.
  exists w. repeat split; auto. congruence.
Qed.

(** A multi-chunk scan that returns has asked for every chunk, met no
    scan-fatal failure, and returns the aggregate of the merge. *)
Lemma returned_is_merged (env : Env) (apiKey basePath : string)
    (includeDev : bool) (ecosystemOverride : option Ecosystem)
    (read : ReadResult) (w1 w : World) (r : ScanResultWithMeta) :
  readManifest env basePath includeDev start = (Returned read, w1) ->
  BATCH_SIZE < List.length (dependencies read) ->
  scanDependencies env apiKey basePath includeDev ecosystemOverride start
  = (Returned r, w) ->
  let eco := effectiveEcosystem ecosystemOverride read in
  let todo := batchRequests eco (dependencies read) in
  let replies := answers (PkgWatchClient env apiKey) [] todo in
  Forall goesOn replies
  /\ r = mkScanResultWithMeta (aggregate (merged replies))
           (read_format read) eco
  /\ requests w = todo.
Proof.
  intros Hread Hlen Hrun eco todo replies.
  destruct (scanDependencies_batches env apiKey basePath includeDev
              ecosystemOverride read w1 Hread Hlen)
    as (w' & Hrun' & Hreq & _).
  cbv zeta in Hrun', Hreq. fold eco todo replies in Hrun', Hreq.
  rewrite Hrun in Hrun'.
  destruct (fst (policy replies (mkBatchState [] [] 0))) as [st| |] eqn:Ev;
    try discriminate.
  injection Hrun' as -> <-.
  pose proof (policy_returned _ _ _ Ev) as Hgo.
  rewrite (policy_goes_on _ Hgo) in Ev, Hreq. cbn [fst snd] in Ev, Hreq.
  injection Ev as <-.
  repeat split; auto.
  rewrite Hreq. unfold replies. rewrite answers_length.
  apply firstn_all.
Qed.

(** The empty mapping, from the path on. *)
Lemma scanDependencies_empty (env : Env) (apiKey basePath : string)
    (includeDev : bool) (ecosystemOverride : option Ecosystem)
    (read : ReadResult) (w1 : World) :
  readManifest env basePath includeDev start = (Returned read, w1) ->
  dependencies read = [] ->
  exists w,
    scanDependencies env apiKey basePath includeDev ecosystemOverride start
    = (Returned
         (mkScanResultWithMeta
            (mkScanResult 0 0 0 0 0 [] None None None None)
            (read_format read)
            (effectiveEcosystem ecosystemOverride read)), w)
    /\ requests w = [].
Proof.
  intros Hread Hdeps.
  destruct (scanDependencies_read env apiKey basePath includeDev
              ecosystemOverride _ _ _ Hread) as (w2 & -> & Hreq & _).
  destruct (readManifest_effects _ _ _ _ _ _ Hread) as (Hreq1 & _).
  destruct (scanRead_empty env apiKey (dependencies read)
              (effectiveEcosystem ecosystemOverride read)
              (read_format read) w2 Hdeps) as (w & -> & Hreq2 & _).
  exists w. split; [reflexivity|].
  rewrite Hreq2, Hreq, Hreq1. reflexivity.
Qed.

(** The single chunk, from the path on. *)
Lemma scanDependencies_single (env : Env) (apiKey basePath : string)
    (includeDev : bool) (ecosystemOverride : option Ecosystem)
    (read : ReadResult) (w1 : World) :
  readManifest env basePath includeDev start = (Returned read, w1) ->
  0 < List.length (dependencies read) <= BATCH_SIZE ->
  let eco := effectiveEcosystem ecosystemOverride read in
  exists w,
    scanDependencies env apiKey basePath includeDev ecosystemOverride start
    = (match PkgWatchClient env apiKey [] (dependencies read, eco) with
       | Gave r => Returned (mkScanResultWithMeta r (read_format read) eco)
       | Raised (ApiClientError e) => Threw (ApiClientError e)
       | Raised other =>
           Threw (Error ("Failed to scan dependencies: "
                         ++ messageOf other))
       end, w)
    /\ requests w = [(dependencies read, eco)].
Proof.
  intros Hread Hlen eco.
  destruct (scanDependencies_read env apiKey basePath includeDev
              ecosystemOverride _ _ _ Hread) as (w2 & -> & Hreq & _).
  destruct (readManifest_effects _ _ _ _ _ _ Hread) as (Hreq1 & _).
  assert (Hnone : requests w2 = []) by (rewrite Hreq, Hreq1; reflexivity).
  destruct (scanRead_single env apiKey (dependencies read) eco
              (read_format read) w2 Hlen) as (w & Hrun & Hreq2 & _).
  rewrite Hnone in Hrun, Hreq2.
  exists w. split; [exact Hrun | exact Hreq2].
Qed.

Lemma countsAs_cases (p : PackageHealth) :
  (countsAs p = VERIFIED <-> statedAssessment p = Some "VERIFIED")
  /\ (countsAs p = PARTIAL <-> statedAssessment p = Some "PARTIAL")
  /\ (countsAs p = UNVERIFIED <->
      statedAssessment p <> Some "VERIFIED"
      /\ statedAssessment p <> Some "PARTIAL").
Proof.
  unfold countsAs. destruct (statedAssessment p) as [a|].
  - destruct (String.eqb_spec a "VERIFIED") as [->|Hv].
    + repeat split; try congruence; try discriminate.
      intros [H _]. congruence.
    + destruct (String.eqb_spec a "PARTIAL") as [->|Hp].
      * repeat split; try congruence; try discriminate.
        intros [_ H]. congruence.
      * repeat split; try congruence; try discriminate.
  - repeat split; try congruence; try discriminate.
Qed.

Lemma policy_count (replies : list (Answer ScanResult)) :
  forall st,
    snd (policy replies st) <= List.length replies
    /\ (replies <> [] -> 0 < snd (policy replies st)).
Proof.
  induction replies as [|a replies IH]; intros st.
  - simpl. split; [lia | congruence].
  - destruct a as [r|e]; simpl.
    + specialize (IH (absorb st r)).
      destruct (policy replies (absorb st r)); simpl in *. split; lia.
    + destruct (abortsScan e); simpl; [split; lia|].
      specialize (IH (countFailure st)).
      destruct (policy replies (countFailure st)); simpl in *. split; lia.
Qed.

(** With distinct keys the requests carry the chunks themselves. *)
Lemma batchRequests_distinct (eco : Ecosystem) (deps : Dependencies) :
  NoDup (map fst deps) ->
  batchRequests eco deps
  = map (fun chunk => (chunk, eco)) (chunks BATCH_SIZE deps).
Proof.
  assert (Hpos : 0 < BATCH_SIZE) by (unfold BATCH_SIZE; lia).
  unfold batchRequests.
  induction deps as [|deps Hne IH] using (chunks_ind BATCH_SIZE Hpos);
    intros Hnd; [reflexivity|].
  rewrite (chunks_cons BATCH_SIZE Hpos) by exact Hne.
  rewrite !map_cons, IH by (apply NoDup_keys_skipn, Hnd).
  rewrite fromEntries_distinct by (apply NoDup_keys_firstn, Hnd).
  reflexivity.
Qed.

(** Lines 98-206 read no manifest. *)
Lemma scanRead_reads (env : Env) (apiKey : string) (deps : Dependencies)
    (eco : Ecosystem) (fmt : string) (w : World) :
  reads (snd (scanRead env apiKey deps eco fmt w)) = reads w.
Proof.
  destruct (Nat.eq_dec (List.length deps) 0) as [E|E].
  - apply length_zero_iff_nil in E.
    destruct (scanRead_empty env apiKey deps eco fmt w E)
      as (w' & -> & _ & H). exact H.
  - destruct (Nat.le_gt_cases (List.length deps) BATCH_SIZE) as [L|L].
    + destruct (scanRead_single env apiKey deps eco fmt w)
        as (w' & -> & _ & H); [lia | exact H].
    + destruct (scanRead_batches env apiKey deps eco fmt w L)
        as (w' & -> & _ & H & _). exact H.
Qed.

(** ** The claims *)

(** C8. When the manifest holds no dependency, [scanDependencies] returns
    the zero-valued result (total 0, every severity count 0, no
    packages) at once, and issues no request. *)
Theorem empty_mapping_zero_result (env : Env) (apiKey basePath : string)
    (includeDev : bool) (ecosystemOverride : option Ecosystem)
    (read : ReadResult) (w1 : World) :
  readManifest env basePath includeDev start = (Returned read, w1) ->
  dependencies read = [] ->
  exists w,
    scanDependencies env apiKey basePath includeDev ecosystemOverride start
    = (Returned
         (mkScanResultWithMeta
            (mkScanResult 0 0 0 0 0 [] None None None None)
            (read_format read)
            (effectiveEcosystem ecosystemOverride read)), w)
    /\ requests w = [].
Proof.
  intros Hread Hdeps.
  exact (scanDependencies_empty env apiKey basePath includeDev
           ecosystemOverride read w1 Hread Hdeps).
Qed.

(** "returns empty result for no dependencies". *)
Lemma empty_mapping_zero_result_witness :
  exists w,
    scanDependencies Scenarios.emptyEnv "test-key" "/repo" true None start
    = (Returned
         (mkScanResultWithMeta
            (mkScanResult 0 0 0 0 0 [] None None None None)
            "package.json" "npm"), w)
    /\ requests w = [].
Proof.
  apply (empty_mapping_zero_result Scenarios.emptyEnv "test-key" "/repo"
           true None (mkReadResult [] "npm" "package.json")
           (mkWorld [] [ReadDirectory ["repo"] true] []));
    reflexivity.
Defined.

(** C6, as the code has it. With one to [BATCH_SIZE] dependencies,
    [scanDependencies] issues exactly one request, for the whole mapping.
    Its answer is returned as it is, with [format] and [ecosystem] added.
    Its failure always reaches the caller: an [ApiClientError] unchanged,
    anything else as a new [Error] whose message is "Failed to scan
    dependencies: " followed by the message of what was thrown. *)
Theorem single_chunk_passthrough (env : Env) (apiKey basePath : string)
    (includeDev : bool) (ecosystemOverride : option Ecosystem)
    (read : ReadResult) (w1 : World) :
  readManifest env basePath includeDev start = (Returned read, w1) ->
  0 < List.length (dependencies read) <= BATCH_SIZE ->
  let eco := effectiveEcosystem ecosystemOverride read in
  exists w,
    scanDependencies env apiKey basePath includeDev ecosystemOverride start
    = (match PkgWatchClient env apiKey [] (dependencies read, eco) with
       | Gave r => Returned (mkScanResultWithMeta r (read_format read) eco)
       | Raised (ApiClientError e) => Threw (ApiClientError e)
       | Raised other =>
           Threw (Error ("Failed to scan dependencies: "
                         ++ messageOf other))
       end, w)
    /\ requests w = [(dependencies read, eco)].
Proof.
  intros Hread Hlen.
  exact (scanDependencies_single env apiKey basePath includeDev
           ecosystemOverride read w1 Hread Hlen).
Qed.

(** One dependency and a malformed response body. *)
Lemma single_chunk_passthrough_witness :
  exists w,
    scanDependencies Scenarios.parseFailureEnv "test-key" "/repo" true None
      start
    = (Threw (Error "Failed to scan dependencies: Unexpected token < in JSON at position 0"),
       w)
    /\ requests w = [([("lodash", "^4.17.21")], "npm")].
Proof.
  apply (single_chunk_passthrough Scenarios.parseFailureEnv "test-key"
           "/repo" true None
           (mkReadResult [("lodash", "^4.17.21")] "npm" "package.json")
           (mkWorld [] [ReadDirectory ["repo"] true] []));
    [reflexivity | simpl; unfold BATCH_SIZE; lia].
Defined.

(** C6 as stated fails: the single request of this scan fails with a
    plain [Error], and what [scanDependencies] throws is a different
    error, with a different message. *)
Lemma single_chunk_error_altered :
  let request := ([("lodash", "^4.17.21")], "npm") in
  exists failure thrown w,
    PkgWatchClient Scenarios.parseFailureEnv "test-key" [] request
    = Raised failure
    /\ scanDependencies Scenarios.parseFailureEnv "test-key" "/repo" true
         None start = (Threw thrown, w)
    /\ requests w = [request]
    /\ thrown <> failure.
Proof.
  do 3 eexists. split; [reflexivity|]. split; [reflexivity|].
  split; [reflexivity|]. discriminate.
Qed.

(** C1, as the code has it. A result returned from the empty-mapping
    path or from the multi-chunk path satisfies the aggregation
    invariant, whatever the chunks answered and however many of them
    failed: total = critical + high + medium + low = the number of
    packages. A result returned from the single-chunk path is the
    response of the client as it came, counts included, with nothing
    recomputed. *)
Theorem invariant_of_recomputed_results (env : Env)
    (apiKey basePath : string) (includeDev : bool)
    (ecosystemOverride : option Ecosystem)
    (read : ReadResult) (w1 w : World) (r : ScanResultWithMeta) :
  readManifest env basePath includeDev start = (Returned read, w1) ->
  scanDependencies env apiKey basePath includeDev ecosystemOverride start
  = (Returned r, w) ->
  (dependencies read = [] \/ BATCH_SIZE < List.length (dependencies read) ->
   aggregationInvariant (base r))
  /\ (0 < List.length (dependencies read) <= BATCH_SIZE ->
      PkgWatchClient env apiKey []
        (dependencies read, effectiveEcosystem ecosystemOverride read)
      = Gave (base r)).
Proof.
  intros Hread Hrun. split.
  - intros [Hempty|Hmany].
    + destruct (scanDependencies_empty env apiKey basePath includeDev
                  ecosystemOverride read w1 Hread Hempty) as (w' & H & _).
      rewrite Hrun in H. injection H as -> _.
      split; reflexivity.
    + destruct (returned_is_merged env apiKey basePath includeDev
                  ecosystemOverride read w1 w r Hread Hmany Hrun)
        as (_ & -> & _).
      apply aggregate_invariant.
  - intros Hfew.
    destruct (scanDependencies_single env apiKey basePath includeDev
                ecosystemOverride read w1 Hread Hfew) as (w' & H & _).
    rewrite Hrun in H.
    destruct (PkgWatchClient env apiKey [] _) as [resp|[m|e|m|t]];
      try discriminate.
    injection H as -> _. reflexivity.
Qed.

(** "processes dependencies in batches when > 25 packages": the result
    of the thirty-dependency scan satisfies the invariant. *)
Lemma invariant_of_recomputed_results_witness :
  exists r w,
    scanDependencies Scenarios.thirtyEnv "test-key" "/repo" true None start
    = (Returned r, w)
    /\ aggregationInvariant (base r).
Proof.
  eexists. eexists. split; [vm_compute; reflexivity|].
  refine (proj1 (invariant_of_recomputed_results Scenarios.thirtyEnv
                   "test-key" "/repo" true None
                   (mkReadResult (Scenarios.numbered 30) "npm"
                      "package.json")
                   (mkWorld [] [ReadDirectory ["repo"] true] []) _ _ _ _)
            _).
  - vm_compute. reflexivity.
  - vm_compute. reflexivity.
  - right. unfold BATCH_SIZE. simpl. lia.
Defined.

(** C1 as stated fails on the single-chunk path: "does not batch when
    <= 25 packages" has the client answer twenty dependencies with
    total 20 and an empty package list, and that is what
    [scanDependencies] returns. *)
Lemma single_chunk_breaks_invariant :
  exists r w,
    scanDependencies Scenarios.twentyEnv "test-key" "/repo" true None start
    = (Returned r, w)
    /\ total (base r) = 20%Z
    /\ packages (base r) = []
    /\ ~ aggregationInvariant (base r).
Proof.
  eexists. eexists. split; [vm_compute; reflexivity|].
  split; [reflexivity|]. split; [reflexivity|].
  intros [_ H]. discriminate H.
Qed.

(** C7. In the result of a multi-chunk scan, a package counts as
    UNVERIFIED exactly when its assessment is missing or is neither
    VERIFIED nor PARTIAL; the data-quality counts are the numbers of
    packages counting as VERIFIED, PARTIAL and UNVERIFIED;
    [verified_risk_count] is the number of VERIFIED packages at HIGH or
    CRITICAL, [unverified_risk_count] the number of PARTIAL or
    UNVERIFIED packages at HIGH or CRITICAL. *)
Theorem quality_counts (env : Env) (apiKey basePath : string)
    (includeDev : bool) (ecosystemOverride : option Ecosystem)
    (read : ReadResult) (w1 w : World) (r : ScanResultWithMeta) :
  readManifest env basePath includeDev start = (Returned read, w1) ->
  BATCH_SIZE < List.length (dependencies read) ->
  scanDependencies env apiKey basePath includeDev ecosystemOverride start
  = (Returned r, w) ->
  let pkgs := packages (base r) in
  (forall p,
      countsAs p = UNVERIFIED <->
      statedAssessment p <> Some "VERIFIED"
      /\ statedAssessment p <> Some "PARTIAL")
  /\ quality (base r)
     = Some (mkDataQualitySummary
               (howMany (fun p => Assessment_eqb (countsAs p) VERIFIED) pkgs)
               (howMany (fun p => Assessment_eqb (countsAs p) PARTIAL) pkgs)
               (howMany (fun p => Assessment_eqb (countsAs p) UNVERIFIED)
                  pkgs))
  /\ verified_risk_count (base r)
     = Some (howMany (fun p => Assessment_eqb (countsAs p) VERIFIED
                               && highOrCritical p) pkgs)
  /\ unverified_risk_count (base r)
     = Some (howMany (fun p => (Assessment_eqb (countsAs p) PARTIAL
                                || Assessment_eqb (countsAs p) UNVERIFIED)
                               && highOrCritical p) pkgs).
Proof.
  intros Hread Hmany Hrun pkgs. split.
  { intros p. apply countsAs_cases. }
  destruct (returned_is_merged env apiKey basePath includeDev
              ecosystemOverride read w1 w r Hread Hmany Hrun)
    as (_ & -> & _).
  subst pkgs. unfold aggregate. cbn [base packages quality
    verified_risk_count unverified_risk_count].
  rewrite fold_tally. cbn [verifiedCount partialCount unverifiedCount
    verifiedRiskCount unverifiedRiskCount Nat.add].
  repeat split; reflexivity.
Qed.

(** Six packages with every kind of assessment: two VERIFIED, one
    PARTIAL, three counted UNVERIFIED (one unrecognised, two missing). *)
Lemma quality_counts_witness :
  exists r w,
    scanDependencies Scenarios.mixedEnv "test-key" "/repo" true None start
    = (Returned r, w)
    /\ quality (base r) = Some (mkDataQualitySummary 2 1 3)
    /\ verified_risk_count (base r) = Some 1%Z
    /\ unverified_risk_count (base r) = Some 3%Z.
Proof.
  eexists. eexists. split; [vm_compute; reflexivity|].
  destruct (quality_counts Scenarios.mixedEnv "test-key" "/repo" true None
              (mkReadResult (Scenarios.numbered 26) "npm" "package.json")
              (mkWorld [] [ReadDirectory ["repo"] true] []) _ _
              ltac:(vm_compute; reflexivity)
              ltac:(vm_compute; lia)
              ltac:(vm_compute; reflexivity))
    as (_ & Hq & Hv & Hu).
  rewrite Hq, Hv, Hu. repeat split; reflexivity.
Defined.

(** C9, as the code has it. The [not_found] list of a multi-chunk scan
    is the concatenation, in chunk order, of the [not_found] lists of
    the chunks that succeeded, and is absent when that is empty; no name
    is dropped, whether or not it occurs twice. *)
Theorem not_found_concatenated (env : Env) (apiKey basePath : string)
    (includeDev : bool) (ecosystemOverride : option Ecosystem)
    (read : ReadResult) (w1 w : World) (r : ScanResultWithMeta) :
  readManifest env basePath includeDev start = (Returned read, w1) ->
  BATCH_SIZE < List.length (dependencies read) ->
  scanDependencies env apiKey basePath includeDev ecosystemOverride start
  = (Returned r, w) ->
  let replies :=
    answers (PkgWatchClient env apiKey) []
      (batchRequests (effectiveEcosystem ecosystemOverride read)
         (dependencies read)) in
  not_found (base r)
  = match flat_map notFoundOf replies with
    | [] => None
    | names => Some names
    end.
Proof.
  intros Hread Hmany Hrun replies.
  destruct (returned_is_merged env apiKey basePath includeDev
              ecosystemOverride read w1 w r Hread Hmany Hrun)
    as (_ & -> & _).
  fold replies. unfold aggregate, merged.
  cbn [base not_found notFound].
  destruct (flat_map notFoundOf replies); reflexivity.
Qed.

(** Two chunks that both report "ghost": the name comes out twice. *)
Lemma not_found_concatenated_witness :
  exists r w,
    scanDependencies Scenarios.ghostEnv "test-key" "/repo" true None start
    = (Returned r, w)
    /\ not_found (base r) = Some ["ghost"; "ghost"].
Proof.
  eexists. eexists. split; [vm_compute; reflexivity|].
  rewrite (not_found_concatenated Scenarios.ghostEnv "test-key" "/repo"
             true None
             (mkReadResult (Scenarios.numbered 26) "npm" "package.json")
             (mkWorld [] [ReadDirectory ["repo"] true] []) _ _
             ltac:(vm_compute; reflexivity)
             ltac:(vm_compute; lia)
             ltac:(vm_compute; reflexivity)).
  reflexivity.
Defined.

(** C9 as stated fails: the aggregate [not_found] list of this
    two-chunk scan holds the same name twice. *)
Lemma not_found_keeps_duplicates :
  exists r w names,
    scanDependencies Scenarios.ghostEnv "test-key" "/repo" true None start
    = (Returned r, w)
    /\ List.length (requests w) = 2
    /\ not_found (base r) = Some names
    /\ ~ NoDup names.
Proof.
  eexists. eexists. eexists. split; [vm_compute; reflexivity|].
  split; [reflexivity|]. split; [reflexivity|].
  intros H. inversion H as [|x l Hin _]; subst. apply Hin. left.
  reflexivity.
Qed.

(** C2. In a multi-chunk scan: when the request of chunk [k] is the
    first to fail with an [ApiClientError] whose code is rate_limited,
    unauthorized or forbidden, [scanDependencies] throws that very error
    and has issued the requests of chunks 0..k and no other; when no
    chunk fails that way, every chunk is requested, the failed ones are
    counted, and the scan returns (it does not throw) the aggregate of
    the chunks that succeeded. The returned result does not depend on
    the number of failed chunks; that number is only logged, as a
    warning, when it is positive. *)
Theorem chunk_failure_policy (env : Env) (apiKey basePath : string)
    (includeDev : bool) (ecosystemOverride : option Ecosystem)
    (read : ReadResult) (w1 : World) :
  readManifest env basePath includeDev start = (Returned read, w1) ->
  BATCH_SIZE < List.length (dependencies read) ->
  let eco := effectiveEcosystem ecosystemOverride read in
  let todo := batchRequests eco (dependencies read) in
  let replies := answers (PkgWatchClient env apiKey) [] todo in
  (forall k e,
      nth_error replies k = Some (Raised e) ->
      scanFatal e ->
      (forall j a, j < k -> nth_error replies j = Some a -> goesOn a) ->
      exists w,
        scanDependencies env apiKey basePath includeDev ecosystemOverride
          start = (Threw e, w)
        /\ requests w = firstn (S k) todo
        /\ List.length (requests w) = S k)
  /\ (Forall goesOn replies ->
      exists w,
        scanDependencies env apiKey basePath includeDev ecosystemOverride
          start
        = (Returned (mkScanResultWithMeta (aggregate (merged replies))
                       (read_format read) eco), w)
        /\ requests w = todo
        /\ (forall n,
              aggregate (merged replies)
              = aggregate (mkBatchState (flat_map packagesOf replies)
                             (flat_map notFoundOf replies) n))
        /\ (0 < List.length (filter failed replies) ->
            In (Warning (toString (List.length (filter failed replies))
                         ++ " batch(es) failed. Results may be incomplete."))
              (log w))).
Proof.
  intros Hread Hmany eco todo replies.
  destruct (scanDependencies_batches env apiKey basePath includeDev
              ecosystemOverride read w1 Hread Hmany)
    as (w & Hrun & Hreq & _ & Hlog).
  cbv zeta in Hrun, Hreq, Hlog. fold eco todo replies in Hrun, Hreq, Hlog.
  split.
  - intros k e Hk He Hbefore.
    rewrite (policy_aborts replies _ k e Hk He Hbefore) in Hrun, Hreq.
    exists w. repeat split; auto.
    rewrite Hreq. apply firstn_length_le.
    assert (k < List.length replies)
      by (apply nth_error_Some; congruence).
    unfold replies in *. rewrite answers_length in *. lia.
  - intros Hgo.
    rewrite (policy_goes_on replies Hgo) in Hrun, Hreq, Hlog.
    cbn [fst snd allPackages notFound failedBatches app Nat.add]
      in Hrun, Hreq, Hlog.
    exists w. repeat split; auto.
    + rewrite Hreq. unfold replies. rewrite answers_length.
      apply firstn_all.
    + intros Hpos. apply (Hlog _ eq_refl). exact Hpos.
Qed.

(** Two thirty-dependency scans: chunk 1 rate-limited, the scan throws
    after one request; chunk 1 down with a server error and chunk 2
    giving five LOW packages, the scan returns total 5 and warns. *)
Lemma chunk_failure_policy_witness :
  (exists w,
      scanDependencies Scenarios.throttledEnv "test-key" "/repo" true None
        start = (Threw (ApiClientError Scenarios.rateLimited), w)
      /\ List.length (requests w) = 1)
  /\ (exists r w,
        scanDependencies Scenarios.flakyEnv "test-key" "/repo" true None
          start = (Returned r, w)
        /\ total (base r) = 5%Z
        /\ List.length (requests w) = 2
        /\ In (Warning "1 batch(es) failed. Results may be incomplete.")
             (log w)).
Proof.
  split.
  - destruct (proj1 (chunk_failure_policy Scenarios.throttledEnv "test-key"
                       "/repo" true None
                       (mkReadResult (Scenarios.numbered 30) "npm"
                          "package.json")
                       (mkWorld [] [ReadDirectory ["repo"] true] [])
                       ltac:(vm_compute; reflexivity)
                       ltac:(vm_compute; lia))
                0 (ApiClientError Scenarios.rateLimited))
      as (w & Hrun & _ & Hlen).
    + vm_compute. reflexivity.
    + exists Scenarios.rateLimited. split; [reflexivity|].
      left. reflexivity.
    + intros j a Hj. lia.
    + exists w. split; [exact Hrun | exact Hlen].
  - destruct (proj2 (chunk_failure_policy Scenarios.flakyEnv "test-key"
                       "/repo" true None
                       (mkReadResult (Scenarios.numbered 30) "npm"
                          "package.json")
                       (mkWorld [] [ReadDirectory ["repo"] true] [])
                       ltac:(vm_compute; reflexivity)
                       ltac:(vm_compute; lia)))
      as (w & Hrun & Hreq & _ & Hlog).
    + repeat constructor.
      intros (e & He & Hc). injection He as <-.
      destruct Hc as [Hc|[Hc|Hc]]; discriminate Hc.
    + eexists. exists w. split; [exact Hrun|].
      split; [reflexivity|]. split; [rewrite Hreq; reflexivity|].
      apply Hlog. vm_compute. lia.
Defined.

(** C5. A mapping of more than [BATCH_SIZE] = 25 entries with distinct
    keys is cut into consecutive chunks of 1 to 25 entries that, put
    back together, are the entries in their order, ceil(n/25) of them;
    the requests [scanDependencies] issues are these chunks, one after
    the other from the first, all of them when the scan returns. Thirty
    entries make two chunks; when the first answers with 1 CRITICAL, 2
    HIGH, 10 MEDIUM and 12 LOW packages and the second with five
    packages, 1 HIGH, 2 MEDIUM and 2 LOW, then, whatever subtotals the
    two answers carry, the scan returns total 30, critical 1, high 3,
    medium 12, low 14 over the merged package list. *)
Theorem chunked_in_order (env : Env) (apiKey basePath : string)
    (includeDev : bool) (ecosystemOverride : option Ecosystem)
    (read : ReadResult) (w1 : World) :
  readManifest env basePath includeDev start = (Returned read, w1) ->
  NoDup (map fst (dependencies read)) ->
  BATCH_SIZE < List.length (dependencies read) ->
  let deps := dependencies read in
  let eco := effectiveEcosystem ecosystemOverride read in
  let parts := chunks BATCH_SIZE deps in
  (List.concat parts = deps
   /\ Forall (fun c => 0 < List.length c <= BATCH_SIZE) parts
   /\ List.length parts = ceilDiv (List.length deps) BATCH_SIZE)
  /\ (forall o w,
        scanDependencies env apiKey basePath includeDev ecosystemOverride
          start = (o, w) ->
        (exists k,
            0 < k <= List.length parts
            /\ requests w = map (fun c => (c, eco)) (firstn k parts))
        /\ (forall r, o = Returned r ->
                      requests w = map (fun c => (c, eco)) parts))
  /\ (List.length deps = 30 ->
      List.length parts = 2
      /\ forall first second,
          answers (PkgWatchClient env apiKey) []
            (map (fun c => (c, eco)) parts)
          = [Gave first; Gave second] ->
          withRisk CRITICAL (packages first) = 1%Z ->
          withRisk HIGH (packages first) = 2%Z ->
          withRisk MEDIUM (packages first) = 10%Z ->
          withRisk LOW (packages first) = 12%Z ->
          List.length (packages second) = 5 ->
          withRisk HIGH (packages second) = 1%Z ->
          withRisk MEDIUM (packages second) = 2%Z ->
          withRisk LOW (packages second) = 2%Z ->
          exists r w,
            scanDependencies env apiKey basePath includeDev
              ecosystemOverride start = (Returned r, w)
            /\ List.length (requests w) = 2
            /\ packages (base r)
               = (packages first ++ packages second)%list
            /\ total (base r) = 30%Z
            /\ critical (base r) = 1%Z
            /\ high (base r) = 3%Z
            /\ medium (base r) = 12%Z
            /\ low (base r) = 14%Z).
Proof.
  intros Hread Hnd Hmany deps eco parts.
  assert (Hpos : 0 < BATCH_SIZE) by (unfold BATCH_SIZE; lia).
  pose proof (chunks_count BATCH_SIZE Hpos deps) as Hcount.
  fold parts in Hcount.
  destruct (scanDependencies_batches env apiKey basePath includeDev
              ecosystemOverride read w1 Hread Hmany)
    as (w & Hrun & Hreq & _).
  cbv zeta in Hrun, Hreq. fold deps eco in Hrun, Hreq.
  rewrite (batchRequests_distinct eco deps Hnd) in Hrun, Hreq.
  fold parts in Hrun, Hreq.
  set (todo := map (fun c => (c, eco)) parts) in *.
  set (replies := answers (PkgWatchClient env apiKey) [] todo) in *.
  assert (Hlen : List.length replies = List.length parts).
  { unfold replies, todo. rewrite answers_length. apply length_map. }
  split; [|split].
  - repeat split.
    + apply (chunks_concat BATCH_SIZE Hpos).
    + apply (chunks_bounded BATCH_SIZE Hpos).
    + exact Hcount.
  - intros o w' Hrun'. rewrite Hrun in Hrun'. injection Hrun' as <- <-.
    destruct (policy_count replies (mkBatchState [] [] 0)) as [Hle Hlt].
    split.
    + exists (snd (policy replies (mkBatchState [] [] 0))). split.
      * split; [|lia]. apply Hlt. intros E.
        rewrite E in Hlen. simpl in Hlen.
        assert (0 < ceilDiv (List.length deps) BATCH_SIZE).
        { unfold ceilDiv, BATCH_SIZE, deps in *. simpl Nat.sub.
          apply Nat.div_str_pos. lia. }
        lia.
      * rewrite Hreq. unfold todo. apply firstn_map.
    + intros r Hr.
      destruct (fst (policy replies (mkBatchState [] [] 0)))
        as [st| |] eqn:Ev; try discriminate.
      pose proof (policy_returned _ _ _ Ev) as Hgo.
      rewrite (policy_goes_on _ Hgo) in Hreq. cbn [snd] in Hreq.
      rewrite Hreq. unfold replies. rewrite answers_length.
      apply firstn_all.
  - intros H30. split.
    { rewrite Hcount, H30. reflexivity. }
    intros first second Hans Hc1 Hh1 Hm1 Hl1 Hn2 Hh2 Hm2 Hl2.
    fold todo replies in Hans.
    pose proof (withRisk_partition (packages first)) as P1.
    pose proof (withRisk_partition (packages second)) as P2.
    assert (Hgo : Forall goesOn replies)
      by (rewrite Hans; repeat constructor).
    rewrite (policy_goes_on _ Hgo) in Hrun, Hreq.
    cbn [fst snd allPackages notFound failedBatches app] in Hrun, Hreq.
    eexists. exists w. split; [exact Hrun|].
    rewrite Hans. cbn [flat_map packagesOf]. rewrite app_nil_r.
    unfold aggregate.
    cbn [base total critical high medium low packages allPackages].
    rewrite !withRisk_app, length_app.
    repeat split; try lia.
    rewrite Hreq, length_firstn, Hans. unfold todo.
    rewrite length_map, <- Hlen, Hans. reflexivity.
Qed.

(** "processes dependencies in batches when > 25 packages". *)
Lemma chunked_in_order_witness :
  exists r w,
    scanDependencies Scenarios.thirtyEnv "test-key" "/repo" true None start
    = (Returned r, w)
    /\ List.length (requests w) = 2
    /\ total (base r) = 30%Z
    /\ critical (base r) = 1%Z
    /\ high (base r) = 3%Z
    /\ medium (base r) = 12%Z
    /\ low (base r) = 14%Z.
Proof.
  assert (Hnd : NoDup (map fst (Scenarios.numbered 30))).
  { replace (map fst (Scenarios.numbered 30))
      with (nodup string_dec (map fst (Scenarios.numbered 30)))
      by (vm_compute; reflexivity).
    apply NoDup_nodup. }
  destruct (proj2 (proj2 (chunked_in_order Scenarios.thirtyEnv "test-key"
                            "/repo" true None
                            (mkReadResult (Scenarios.numbered 30) "npm"
                               "package.json")
                            (mkWorld [] [ReadDirectory ["repo"] true] [])
                            ltac:(vm_compute; reflexivity)
                            Hnd
                            ltac:(vm_compute; lia)))
              ltac:(vm_compute; reflexivity)) as [_ H].
  destruct (H Scenarios.firstBatch Scenarios.secondBatch)
    as (r & w & Hrun & Hreq & _ & Ht & Hc & Hh & Hm & Hl);
    try (vm_compute; reflexivity).
  exists r, w. repeat split; assumption.
Defined.

(** C10. [scanDependencies] resolves the symbolic links of the path it
    is given. The workspace is [GITHUB_WORKSPACE] when that is set and
    not empty, and the working directory otherwise. When the real path,
    resolved, is not the resolved workspace or below it, the scan throws;
    when the path does not exist or cannot be resolved it throws; in every
    case without a request, a manifest read or a log line. A manifest is
    read only at a real path that resolves to the workspace or below
    it. *)
Theorem symlink_guard (env : Env) (apiKey basePath : string)
    (includeDev : bool) (ecosystemOverride : option Ecosystem) :
  let resolvedPath := resolve env basePath in
  let workspace := normalize (resolve env (workspaceOf env)) in
  let run :=
    scanDependencies env apiKey basePath includeDev ecosystemOverride
      start in
  ((forall text,
       GITHUB_WORKSPACE env = Some text -> text <> EmptyString ->
       workspaceOf env = text)
   /\ (GITHUB_WORKSPACE env = None
       \/ GITHUB_WORKSPACE env = Some EmptyString ->
       workspaceOf env = cwd env))
  /\ (forall realPath,
        existsSync env resolvedPath = true ->
        realpathSync env resolvedPath = Gave realPath ->
        inside workspace (normalize realPath) = false ->
        run = (Threw (Error
                        (("Path resolves outside workspace via symlink: "
                          ++ render resolvedPath ++ " -> "
                          ++ render realPath)
                         ++ newline ++ newline ++ hint)), start))
  /\ (forall err,
        existsSync env resolvedPath = true ->
        realpathSync env resolvedPath = Raised err ->
        run = (Threw (Error
                        (("Cannot resolve path " ++ render resolvedPath
                          ++ ": " ++ messageOf err)
                         ++ newline ++ newline ++ hint)), start))
  /\ (existsSync env resolvedPath = false ->
      run = (Threw (Error
                      (("Path does not exist: " ++ render resolvedPath)
                       ++ newline ++ newline ++ hint)), start))
  /\ (reads (snd run) <> [] ->
      exists realPath,
        realpathSync env resolvedPath = Gave realPath
        /\ inside workspace (normalize realPath) = true
        /\ (reads (snd run) = [ReadFile realPath includeDev]
            \/ reads (snd run) = [ReadDirectory realPath includeDev])).
Proof.
  intros resolvedPath workspace run. subst run workspace.
  split; [|split; [|split; [|split]]].
  - unfold workspaceOf. split.
    + intros text -> Hne. destruct text; [congruence | reflexivity].
    + intros [-> | ->]; reflexivity.
  - intros realPath H1 H2 H3. apply scanDependencies_unread.
    apply readManifest_escape; assumption.
  - intros err H1 H2. apply scanDependencies_unread.
    apply readManifest_unresolved; assumption.
  - intros H. apply scanDependencies_unread.
    apply readManifest_missing; assumption.
  - destruct (readManifest env basePath includeDev start)
      as [o1 w1] eqn:Hread.
    destruct (readManifest_effects _ _ _ _ _ _ Hread)
      as (_ & _ & Hreads).
    assert (Hsame :
        reads (snd (scanDependencies env apiKey basePath includeDev
                      ecosystemOverride start)) = reads w1).
    { destruct o1 as [read|e|].
      - destruct (scanDependencies_read env apiKey basePath includeDev
                    ecosystemOverride _ _ _ Hread) as (w2 & -> & _ & <-).
        apply scanRead_reads.
      - rewrite (scanDependencies_unread env apiKey basePath includeDev
                   ecosystemOverride _ _ _ Hread). reflexivity.
      - exfalso. exact (readManifest_fuelled _ _ _ _ _ Hread). }
    rewrite Hsame. intros Hne.
    destruct Hreads as [Hnone | (realPath & _ & Hreal & Hin & Hr)].
    + rewrite Hnone in Hne. exfalso. apply Hne. reflexivity.
    + exists realPath. auto.
Qed.

(** The tests of "Symlink Security": a link to /etc/passwd under
    [GITHUB_WORKSPACE] = /repo; with the variable unset, a real path
    [${workspace}/../secrets/config], refused, and a real path
    [${workspace}/actual/nested/package.json], read; a broken link. *)
Lemma symlink_guard_witness :
  fst (scanDependencies Scenarios.escapingEnv "test-key" "/repo" false
         None start)
  = Threw (Error
             (("Path resolves outside workspace via symlink: /repo -> /etc/passwd")
              ++ newline ++ newline ++ hint))
  /\ scanDependencies Observations.traversalEnv "test-key"
       "./malicious-link" false None start
     = (Threw (Error
                 (("Path resolves outside workspace via symlink: /home/runner/work/app/malicious-link -> /home/runner/work/app/../secrets/config")
                  ++ newline ++ newline ++ hint)), start)
  /\ fst (scanDependencies Scenarios.brokenEnv "test-key" "/repo" false
            None start)
     = Threw (Error
                (("Cannot resolve path /repo: ENOENT: no such file or directory")
                 ++ newline ++ newline ++ hint))
  /\ (workspaceOf Observations.withinEnv = cwd Observations.withinEnv
      /\ exists realPath,
          realpathSync Observations.withinEnv
            (resolve Observations.withinEnv "./symlink-to-nested")
          = Gave realPath
          /\ inside
               (normalize (resolve Observations.withinEnv
                             (workspaceOf Observations.withinEnv)))
               (normalize realPath) = true
          /\ reads (snd (scanDependencies Observations.withinEnv "test-key"
                           "./symlink-to-nested" false None start))
             = [ReadFile realPath false]).
Proof.
  split; [|split; [|split]].
  - rewrite (proj1 (proj2 (symlink_guard Scenarios.escapingEnv "test-key"
                             "/repo" false None))
               ["etc"; "passwd"] eq_refl eq_refl eq_refl).
    reflexivity.
  - exact (proj1 (proj2 (symlink_guard Observations.traversalEnv "test-key"
                           "./malicious-link" false None))
             ["home"; "runner"; "work"; "app"; ".."; "secrets"; "config"]
             eq_refl eq_refl eq_refl).
  - rewrite (proj1 (proj2 (proj2 (symlink_guard Scenarios.brokenEnv
                                    "test-key" "/repo" false None)))
               (Error "ENOENT: no such file or directory")
               eq_refl eq_refl).
    reflexivity.
  - split.
    + exact (proj2 (proj1 (symlink_guard Observations.withinEnv "test-key"
                             "./symlink-to-nested" false None))
               (or_introl eq_refl)).
    + destruct (proj2 (proj2 (proj2 (proj2
                  (symlink_guard Observations.withinEnv "test-key"
                     "./symlink-to-nested" false None)))))
        as (realPath & Hreal & Hin & [Hr|Hr]).
      * vm_compute. discriminate.
      * exists realPath. repeat split; assumption.
      * exfalso. vm_compute in Hr. discriminate Hr.
Defined.

End ScannerFacts.

(* ===================================================================== *)
(** * More of scanner.ts *)
(* ===================================================================== *)

Module ScannerMore.
Import NodePath Scanner Reference Observations ScannerFacts.
Local Open Scope scanner_scope.

(** ** Lines 42-90: from the path to the manifest *)

Section Reading.
Variable env : Env.
Variable basePath : string.
Variable includeDev : bool.

(** Reading the manifest never lets a [DependencyParseError] out. *)
Lemma readManifest_thrown (w w' : World) (e : Exn) :
  readManifest env basePath includeDev w = (Threw e, w') ->
  forall message, e <> DependencyParseError message.
Proof.
  unfold readManifest.
  cbv [tryCatch bind noteRead call ret throw]. cases_of_read.
  all: intros H; try discriminate H; injection H as <- <-; discriminate.
Qed.

Variable realPath : Path.
Hypothesis exists_ : existsSync env (resolve env basePath) = true.
Hypothesis real : realpathSync env (resolve env basePath) = Gave realPath.
Hypothesis let_through :
  refusedByGuard (resolve env (workspaceOf env)) realPath = false.

Lemma readManifest_file (w : World) (stats : Stats) :
  statSync env realPath = Gave stats ->
  isFile stats = true ->
  readManifest env basePath includeDev w
  = (match readDependenciesFromFile env realPath includeDev with
     | Gave read => Returned read
     | Raised e => Threw (rethrown e)
     end, afterRead w (ReadFile realPath includeDev)).
Proof.
  intros Hs Hf. unfold readManifest.
  cbv [tryCatch bind noteRead call ret throw].
  unfold refusedByGuard in let_through.
  rewrite exists_, real. cbn [negb]. rewrite let_through, Hs, Hf.
  destruct (readDependenciesFromFile env realPath includeDev)
    as [r|[m|e|m|t]]; reflexivity.
Qed.

Lemma readManifest_directory (w : World) (stats : Stats) :
  statSync env realPath = Gave stats ->
  isFile stats = false ->
  isDirectory stats = true ->
  readManifest env basePath includeDev w
  = (match readDependencies env realPath includeDev with
     | Gave read => Returned read
     | Raised e => Threw (rethrown e)
     end, afterRead w (ReadDirectory realPath includeDev)).
Proof.
  intros Hs Hf Hd. unfold readManifest.
  cbv [tryCatch bind noteRead call ret throw].
  unfold refusedByGuard in let_through.
  rewrite exists_, real. cbn [negb]. rewrite let_through, Hs, Hf, Hd.
  destruct (readDependencies env realPath includeDev)
    as [r|[m|e|m|t]]; reflexivity.
Qed.

Lemma readManifest_special (w : World) (stats : Stats) :
  statSync env realPath = Gave stats ->
  isFile stats = false ->
  isDirectory stats = false ->
  readManifest env basePath includeDev w
  = (Threw (Error (("Path is not a file or directory: " ++ render realPath)
                   ++ newline ++ newline ++ hint)), w).
Proof.
  intros Hs Hf Hd. unfold readManifest.
  cbv [tryCatch bind noteRead call ret throw].
  unfold refusedByGuard in let_through.
  rewrite exists_, real. cbn [negb]. rewrite let_through, Hs, Hf, Hd.
  reflexivity.
Qed.

Lemma readManifest_stat_failed (w : World) (e : Exn) :
  statSync env realPath = Raised e ->
  readManifest env basePath includeDev w = (Threw (rethrown e), w).
Proof.
  intros Hs. unfold readManifest.
  cbv [tryCatch bind noteRead call ret throw].
  unfold refusedByGuard in let_through.
  rewrite exists_, real. cbn [negb]. rewrite let_through, Hs.
  destruct e; reflexivity.
Qed.

End Reading.

(** ** The guard of line 62, exactly *)

Lemma relativeSegments_below (dir rest : Path) :
  relativeSegments dir (dir ++ rest)%list = rest.
Proof.
  induction dir as [|d dir IH]; simpl.
  - destruct rest; reflexivity.
  - rewrite String.eqb_refl. exact IH.
Qed.

Lemma prefix_append (p s t : string) :
  String.prefix p s = true -> String.prefix p (s ++ t) = true.
Proof.
  revert s; induction p as [|c p IH]; intros s H.
  - destruct (s ++ t); reflexivity.
  - destruct s as [|c' s]; [discriminate|]. simpl in *.
    destruct (Ascii.ascii_dec c c'); [apply IH, H | discriminate].
Qed.

Lemma joined_prefix (p name : string) (rest : list string) :
  String.prefix p name = true ->
  String.prefix p (String.concat "/" (name :: rest)) = true.
Proof.
  intros H. destruct rest as [|r rest]; [exact H|].
  change (String.concat "/" (name :: r :: rest))
    with (name ++ "/" ++ String.concat "/" (r :: rest)).
  apply prefix_append, H.
Qed.

(** When the real path resolves to below the resolved workspace, the
    guard looks at what follows the workspace only. *)
Lemma refusedByGuard_below (workspace realPath rest : Path) :
  normalize realPath = (normalize workspace ++ rest)%list ->
  refusedByGuard workspace realPath
  = String.prefix ".." (String.concat "/" rest)
    || String.prefix "/" (String.concat "/" rest).
Proof.
  intros H. unfold refusedByGuard, relative, startsWith, isAbsolute.
  rewrite H, relativeSegments_below. reflexivity.
Qed.

(** The guard lets a real path through exactly when it resolves to the
    resolved workspace or to a path below it, and what follows the
    workspace begins neither with two dots nor with a slash. *)
Lemma refusedByGuard_exactly (workspace realPath : Path) :
  refusedByGuard workspace realPath = false <->
  exists rest,
    normalize realPath = (normalize workspace ++ rest)%list
    /\ String.prefix ".." (String.concat "/" rest) = false
    /\ String.prefix "/" (String.concat "/" rest) = false.
Proof.
  split.
  - intros H.
    pose proof (NodePathFacts.guard_passed _ _ H) as Hin.
    apply NodePathFacts.inside_prefix in Hin as [rest Hrest].
    rewrite (refusedByGuard_below _ _ _ Hrest) in H.
    apply orb_false_elim in H as [H1 H2]. exists rest. auto.
  - intros (rest & Hrest & H1 & H2).
    rewrite (refusedByGuard_below _ _ _ Hrest), H1, H2. reflexivity.
Qed.

Section Refusal.
Variable env : Env.
Variable basePath : string.
Variable includeDev : bool.

Lemma readManifest_refused (w : World) (realPath : Path) :
  existsSync env (resolve env basePath) = true ->
  realpathSync env (resolve env basePath) = Gave realPath ->
  refusedByGuard (resolve env (workspaceOf env)) realPath = true ->
  readManifest env basePath includeDev w
  = (Threw (Error (("Path resolves outside workspace via symlink: "
                    ++ render (resolve env basePath) ++ " -> "
                    ++ render realPath)
                   ++ newline ++ newline ++ hint)), w).
Proof.
  intros H1 H2 H3. unfold readManifest. cbv [tryCatch bind].
  unfold refusedByGuard in H3. rewrite H1, H2. cbv [negb call ret].
  rewrite H3. reflexivity.
Qed.

End Refusal.

(** Lines 92-206 read no manifest: the reads of a scan are those of
    lines 42-90. *)
Lemma scanDependencies_reads (env : Env) (apiKey basePath : string)
    (includeDev : bool) (ecosystemOverride : option Ecosystem) (w : World) :
  reads (snd (scanDependencies env apiKey basePath includeDev
                ecosystemOverride w))
  = reads (snd (readManifest env basePath includeDev w)).
Proof.
  destruct (readManifest env basePath includeDev w) as [o1 w1] eqn:Hread.
  cbn [snd]. destruct o1 as [read|e|].
  - destruct (scanDependencies_read env apiKey basePath includeDev
                ecosystemOverride _ _ _ Hread) as (w2 & -> & _ & <-).
    apply scanRead_reads.
  - rewrite (scanDependencies_unread env apiKey basePath includeDev
               ecosystemOverride _ _ _ Hread). reflexivity.
  - exfalso. exact (readManifest_fuelled _ _ _ _ _ Hread).
Qed.

(** ** What the reading phase does with failures *)

(** X3. Once the path has passed the guard, a failure of [statSync] or of
    the manifest reader ends the scan before any request: a
    [DependencyParseError] comes out as a plain [Error] carrying its
    message followed by a blank line and the working-directory hint, and
    anything else comes out as it was thrown. A failing reader has been
    called once, at the real path. *)
Theorem reading_failures_rethrown (env : Env) (apiKey basePath : string)
    (includeDev : bool) (ecosystemOverride : option Ecosystem)
    (w : World) (realPath : Path) :
  existsSync env (resolve env basePath) = true ->
  realpathSync env (resolve env basePath) = Gave realPath ->
  refusedByGuard (resolve env (workspaceOf env)) realPath = false ->
  let run :=
    scanDependencies env apiKey basePath includeDev ecosystemOverride w in
  (forall e,
      statSync env realPath = Raised e -> run = (Threw (rethrown e), w))
  /\ (forall stats e,
        statSync env realPath = Gave stats -> isFile stats = true ->
        readDependenciesFromFile env realPath includeDev = Raised e ->
        run = (Threw (rethrown e),
               afterRead w (ReadFile realPath includeDev)))
  /\ (forall stats e,
        statSync env realPath = Gave stats -> isFile stats = false ->
        isDirectory stats = true ->
        readDependencies env realPath includeDev = Raised e ->
        run = (Threw (rethrown e),
               afterRead w (ReadDirectory realPath includeDev)))
  /\ (forall message,
        rethrown (DependencyParseError message)
        = Error (message ++ newline ++ newline ++ hint))
  /\ (forall e,
        (forall message, e <> DependencyParseError message) ->
        rethrown e = e).
Proof.
  intros He Hr Hg run. subst run. repeat split.
  - intros e Hs. apply scanDependencies_unread.
    apply (readManifest_stat_failed env basePath includeDev realPath
             He Hr Hg w e Hs).
  - intros stats e Hs Hf Hread. apply scanDependencies_unread.
    rewrite (readManifest_file env basePath includeDev realPath
               He Hr Hg w stats Hs Hf), Hread. reflexivity.
  - intros stats e Hs Hf Hd Hread. apply scanDependencies_unread.
    rewrite (readManifest_directory env basePath includeDev realPath
               He Hr Hg w stats Hs Hf Hd), Hread. reflexivity.
  - intros e H. destruct e; try reflexivity. exfalso. exact (H _ eq_refl).
Qed.

(** "throws error when no dependency file found". *)
Lemma reading_failures_rethrown_witness :
  scanDependencies missingEnv "test-key" "/repo" true None start
  = (Threw (Error ("No dependency file found in /repo/missing"
                   ++ newline ++ newline ++ hint)),
     afterRead start (ReadDirectory ["repo"] true)).
Proof.
  destruct (reading_failures_rethrown missingEnv "test-key" "/repo" true
              None start ["repo"] eq_refl eq_refl eq_refl)
    as (_ & _ & H & _).
  exact (H (mkStats false true)
           (DependencyParseError "No dependency file found in /repo/missing")
           eq_refl eq_refl eq_refl eq_refl).
Defined.

(** X4. A path that passes the guard but is neither a file nor a
    directory is refused: the scan throws "Path is not a file or
    directory: <real path>" with the hint, and reads no manifest and
    issues no request. *)
Theorem special_file_refused (env : Env) (apiKey basePath : string)
    (includeDev : bool) (ecosystemOverride : option Ecosystem)
    (w : World) (realPath : Path) (stats : Stats) :
  existsSync env (resolve env basePath) = true ->
  realpathSync env (resolve env basePath) = Gave realPath ->
  refusedByGuard (resolve env (workspaceOf env)) realPath = false ->
  statSync env realPath = Gave stats ->
  isFile stats = false ->
  isDirectory stats = false ->
  scanDependencies env apiKey basePath includeDev ecosystemOverride w
  = (Threw (Error (("Path is not a file or directory: " ++ render realPath)
                   ++ newline ++ newline ++ hint)), w).
Proof.
  intros He Hr Hg Hs Hf Hd. apply scanDependencies_unread.
  apply (readManifest_special env basePath includeDev realPath
           He Hr Hg w stats Hs Hf Hd).
Qed.

Lemma special_file_refused_witness :
  scanDependencies socketEnv "test-key" "/repo" true None start
  = (Threw (Error ("Path is not a file or directory: /repo"
                   ++ newline ++ newline ++ hint)), start).
Proof.
  exact (special_file_refused socketEnv "test-key" "/repo" true None start
           ["repo"] (mkStats false false)
           eq_refl eq_refl eq_refl eq_refl eq_refl eq_refl).
Defined.

(** ** The guard, both ways *)

(** X5. The guard lets through a real path that resolves (its empty,
    "." and ".." segments worked out, as [path.relative] does) to the
    resolved workspace or to a path below it, provided what follows the
    workspace begins neither with two dots nor with a slash: the manifest
    is then read exactly once, at the real path as [realpathSync] gave it,
    by the file reader when the path is a file (even if it also says it
    is a directory) and by the directory reader otherwise. *)
Theorem workspace_paths_are_read (env : Env) (apiKey basePath : string)
    (includeDev : bool) (ecosystemOverride : option Ecosystem)
    (w : World) (workspaceText : string) (realPath rest : Path)
    (stats : Stats) :
  (GITHUB_WORKSPACE env = Some workspaceText
   /\ workspaceText <> EmptyString)
  \/ ((GITHUB_WORKSPACE env = None
       \/ GITHUB_WORKSPACE env = Some EmptyString)
      /\ workspaceText = cwd env) ->
  existsSync env (resolve env basePath) = true ->
  realpathSync env (resolve env basePath) = Gave realPath ->
  normalize realPath
  = (normalize (resolve env workspaceText) ++ rest)%list ->
  String.prefix ".." (String.concat "/" rest) = false ->
  String.prefix "/" (String.concat "/" rest) = false ->
  statSync env realPath = Gave stats ->
  isFile stats || isDirectory stats = true ->
  reads (snd (scanDependencies env apiKey basePath includeDev
                ecosystemOverride w))
  = (reads w
     ++ [if isFile stats then ReadFile realPath includeDev
         else ReadDirectory realPath includeDev])%list.
Proof.
  intros Hws He Hr Hrest H1 H2 Hs Hkind.
  assert (Htext : workspaceText = workspaceOf env).
  { unfold workspaceOf.
    destruct Hws as [[-> Hne] | [[-> | ->] ->]]; try reflexivity.
    destruct workspaceText; [congruence | reflexivity]. }
  subst workspaceText.
  assert (Hg : refusedByGuard (resolve env (workspaceOf env)) realPath
               = false).
  { apply refusedByGuard_exactly. exists rest. auto. }
  rewrite scanDependencies_reads.
  destruct (isFile stats) eqn:Hf.
  - rewrite (readManifest_file env basePath includeDev realPath
               He Hr Hg w stats Hs Hf). reflexivity.
  - simpl in Hkind.
    rewrite (readManifest_directory env basePath includeDev realPath
               He Hr Hg w stats Hs Hf Hkind). reflexivity.
Qed.

(** "allows symlinks within workspace", the workspace being the working
    directory; and a real path that leaves /repo and comes back, read
    where [realpathSync] put it. *)
Lemma workspace_paths_are_read_witness :
  reads (snd (scanDependencies withinEnv "test-key" "./symlink-to-nested"
                false None start))
  = [ReadFile ["home"; "runner"; "work"; "app"; "actual"; "nested";
               "package.json"] false]
  /\ reads (snd (scanDependencies roundaboutEnv "test-key" "/repo/link"
                   true None start))
     = [ReadDirectory ["repo"; "sub"; ".."; ".."; "repo"; "pkg"] true].
Proof.
  split.
  - exact (workspace_paths_are_read withinEnv "test-key"
             "./symlink-to-nested" false None start workingDirectory
             ["home"; "runner"; "work"; "app"; "actual"; "nested";
              "package.json"]
             ["actual"; "nested"; "package.json"] (mkStats true false)
             (or_intror (conj (or_introl eq_refl) eq_refl))
             eq_refl eq_refl eq_refl eq_refl eq_refl eq_refl eq_refl).
  - refine (workspace_paths_are_read roundaboutEnv "test-key" "/repo/link"
              true None start "/repo"
              ["repo"; "sub"; ".."; ".."; "repo"; "pkg"] ["pkg"]
              (mkStats false true)
              (or_introl (conj eq_refl _))
              eq_refl eq_refl eq_refl eq_refl eq_refl eq_refl eq_refl).
    discriminate.
Defined.

(** X6. The guard tests the text of the relative path: a real path that
    resolves to a path inside the resolved workspace, but whose first
    segment below the workspace begins with two dots (a directory named
    "..cache", say), is refused like a path outside it, with no read and
    no request. *)
Theorem dotted_name_refused (env : Env) (apiKey basePath : string)
    (includeDev : bool) (ecosystemOverride : option Ecosystem)
    (w : World) (workspaceText : string) (realPath : Path)
    (name : string) (rest : Path) :
  (GITHUB_WORKSPACE env = Some workspaceText
   /\ workspaceText <> EmptyString)
  \/ ((GITHUB_WORKSPACE env = None
       \/ GITHUB_WORKSPACE env = Some EmptyString)
      /\ workspaceText = cwd env) ->
  let workspace := normalize (resolve env workspaceText) in
  existsSync env (resolve env basePath) = true ->
  realpathSync env (resolve env basePath) = Gave realPath ->
  normalize realPath = (workspace ++ name :: rest)%list ->
  String.prefix ".." name = true ->
  inside workspace (normalize realPath) = true
  /\ name <> ".."
  /\ scanDependencies env apiKey basePath includeDev ecosystemOverride w
     = (Threw (Error (("Path resolves outside workspace via symlink: "
                       ++ render (resolve env basePath) ++ " -> "
                       ++ render realPath)
                      ++ newline ++ newline ++ hint)), w).
Proof.
  intros Hws workspace He Hr Hrest Hname.
  assert (Htext : workspaceText = workspaceOf env).
  { unfold workspaceOf.
    destruct Hws as [[-> Hne] | [[-> | ->] ->]]; try reflexivity.
    destruct workspaceText; [congruence | reflexivity]. }
  subst workspaceText. split; [|split].
  - apply NodePathFacts.inside_prefix. eexists. exact Hrest.
  - pose proof (NodePathFacts.normalize_kept realPath) as Hkept.
    rewrite Hrest in Hkept. apply Forall_app in Hkept as [_ Hkept].
    inversion Hkept as [|? ? (_ & _ & Hp) _]. exact Hp.
  - apply scanDependencies_unread.
    apply readManifest_refused; try assumption.
    rewrite (refusedByGuard_below _ _ _ Hrest), (joined_prefix _ _ _ Hname).
    reflexivity.
Qed.

Lemma dotted_name_refused_witness :
  inside ["repo"] ["repo"; "..cache"] = true
  /\ scanDependencies dottedEnv "test-key" "/repo/link" true None start
     = (Threw (Error ("Path resolves outside workspace via symlink: /repo/link -> /repo/..cache"
                      ++ newline ++ newline ++ hint)), start).
Proof.
  refine ((fun H => conj (proj1 H) (proj2 (proj2 H)))
            (dotted_name_refused dottedEnv "test-key" "/repo/link" true None
               start "/repo" ["repo"; "..cache"] "..cache" []
               (or_introl (conj eq_refl _)) eq_refl eq_refl eq_refl
               eq_refl)).
  discriminate.
Defined.

(** ** What a scan can throw *)

(** When the policy throws, the error is the first scan-fatal answer. *)
Lemma policy_threw_at (replies : list (Answer ScanResult)) :
  forall st e,
    fst (policy replies st) = Threw e ->
    exists k,
      nth_error replies k = Some (Raised e)
      /\ snd (policy replies st) = S k
      /\ (forall j a, j < k -> nth_error replies j = Some a -> goesOn a).
Proof.
  induction replies as [|a replies IH]; intros st e H; [discriminate|].
  destruct a as [r|e0]; simpl in H |- *.
  - destruct (policy replies (absorb st r)) as [o n] eqn:E.
    destruct (IH (absorb st r) e) as (k & Hk & Hn & Hbefore).
    { rewrite E. exact H. }
    rewrite E in Hn. simpl in Hn. exists (S k). repeat split; auto.
    + simpl. congruence.
    + intros [|j] a Hj Ha; simpl in Ha.
      * injection Ha as <-. exact I.
      * apply (Hbefore j); [lia | exact Ha].
  - destruct (abortsScan e0) eqn:Ea.
    + simpl in H. injection H as <-. exists 0. repeat split; auto.
      intros j a Hj. lia.
    + destruct (policy replies (countFailure st)) as [o n] eqn:E.
      destruct (IH (countFailure st) e) as (k & Hk & Hn & Hbefore).
      { rewrite E. exact H. }
      rewrite E in Hn. simpl in Hn. exists (S k). repeat split; auto.
      * simpl. congruence.
      * intros [|j] a Hj Ha; simpl in Ha.
        -- injection Ha as <-. apply abortsScan_goesOn, Ea.
        -- apply (Hbefore j); [lia | exact Ha].
Qed.

(** What lines 98-206 throw is an [ApiClientError] of the client, or the
    wrapping [Error] of line 120. *)
Lemma scanRead_thrown (env : Env) (apiKey : string) (deps : Dependencies)
    (eco : Ecosystem) (fmt : string) (w w' : World) (e : Exn) :
  scanRead env apiKey deps eco fmt w = (Threw e, w') ->
  (exists a, e = ApiClientError a) \/ (exists message, e = Error message).
Proof.
  intros H.
  destruct (Nat.eq_dec (List.length deps) 0) as [E|E].
  - apply length_zero_iff_nil in E.
    destruct (scanRead_empty env apiKey deps eco fmt w E)
      as (w2 & H2 & _). rewrite H in H2. discriminate.
  - destruct (Nat.le_gt_cases (List.length deps) BATCH_SIZE) as [L|L].
    + destruct (scanRead_single env apiKey deps eco fmt w)
        as (w2 & H2 & _); [lia|].
      rewrite H in H2.
      destruct (PkgWatchClient env apiKey (requests w) (deps, eco))
        as [r|[m|a|m|t]]; try discriminate;
        injection H2 as -> _; eauto.
    + destruct (scanRead_batches env apiKey deps eco fmt w L)
        as (w2 & H2 & _).
      cbv zeta in H2. rewrite H in H2.
      destruct (fst (policy _ _)) as [st|e'|] eqn:Ev; try discriminate.
      injection H2 as -> _.
      apply policy_threw in Ev. destruct Ev as (a & -> & _). eauto.
Qed.

(** X1. Whatever the file system, the readers and the client do,
    [scanDependencies] never throws a [DependencyParseError]: the ones
    raised while reading are turned into plain errors, and nothing of that
    class gets past the scan itself. *)
Theorem never_throws_parse_error (env : Env) (apiKey basePath : string)
    (includeDev : bool) (ecosystemOverride : option Ecosystem)
    (w w' : World) (e : Exn) :
  scanDependencies env apiKey basePath includeDev ecosystemOverride w
  = (Threw e, w') ->
  forall message, e <> DependencyParseError message.
Proof.
  intros H message.
  destruct (readManifest env basePath includeDev w) as [o1 w1] eqn:Hread.
  destruct o1 as [read|e1|].
  - destruct (scanDependencies_read env apiKey basePath includeDev
                ecosystemOverride _ _ _ Hread) as (w2 & Hrun & _).
    rewrite Hrun in H.
    destruct (scanRead_thrown _ _ _ _ _ _ _ _ H) as [[a ->]|[m ->]];
      discriminate.
  - rewrite (scanDependencies_unread env apiKey basePath includeDev
               ecosystemOverride _ _ _ Hread) in H.
    injection H as <- _.
    apply (readManifest_thrown _ _ _ _ _ _ Hread).
  - exfalso. exact (readManifest_fuelled _ _ _ _ _ Hread).
Qed.

(** A reader that raises a [DependencyParseError]: what comes out is not
    one. *)
Lemma never_throws_parse_error_witness :
  scanDependencies missingEnv "test-key" "/repo" true None start
  = (Threw (Error ("No dependency file found in /repo/missing"
                   ++ newline ++ newline ++ hint)),
     afterRead start (ReadDirectory ["repo"] true))
  /\ (forall message,
        Error ("No dependency file found in /repo/missing"
               ++ newline ++ newline ++ hint)
        <> DependencyParseError message).
Proof.
  split; [reflexivity|].
  exact (never_throws_parse_error missingEnv "test-key" "/repo" true None
           start (afterRead start (ReadDirectory ["repo"] true))
           (Error ("No dependency file found in /repo/missing"
                   ++ newline ++ newline ++ hint))
           eq_refl).
Defined.

(** X2. [scanDependencies] always finishes, by returning or by throwing:
    the batch loop needs no more turns than there are dependencies,
    whatever the collaborators answer. *)
Theorem always_finishes (env : Env) (apiKey basePath : string)
    (includeDev : bool) (ecosystemOverride : option Ecosystem) (w : World) :
  fst (scanDependencies env apiKey basePath includeDev ecosystemOverride w)
  <> OutOfFuel.
Proof.
  destruct (readManifest env basePath includeDev w) as [o1 w1] eqn:Hread.
  destruct o1 as [read|e1|].
  - destruct (scanDependencies_read env apiKey basePath includeDev
                ecosystemOverride _ _ _ Hread) as (w2 & -> & _).
    set (deps := dependencies read).
    set (eco := effectiveEcosystem ecosystemOverride read).
    set (fmt := read_format read).
    destruct (Nat.eq_dec (List.length deps) 0) as [E|E].
    + apply length_zero_iff_nil in E.
      destruct (scanRead_empty env apiKey deps eco fmt w2 E)
        as (w3 & -> & _). discriminate.
    + destruct (Nat.le_gt_cases (List.length deps) BATCH_SIZE) as [L|L].
      * destruct (scanRead_single env apiKey deps eco fmt w2)
          as (w3 & -> & _); [lia|].
        destruct (PkgWatchClient env apiKey (requests w2) (deps, eco))
          as [r|[m|a|m|t]]; discriminate.
      * destruct (scanRead_batches env apiKey deps eco fmt w2 L)
          as (w3 & -> & _).
        cbv zeta. cbn [fst].
        pose proof (policy_fuelled
                      (answers (PkgWatchClient env apiKey) (requests w2)
                         (batchRequests eco deps))
                      (mkBatchState [] [] 0)) as Hf.
        destruct (fst (policy _ _)); [discriminate | discriminate | ].
        exfalso. apply Hf. reflexivity.
  - rewrite (scanDependencies_unread env apiKey basePath includeDev
               ecosystemOverride _ _ _ Hread). discriminate.
  - exfalso. exact (readManifest_fuelled _ _ _ _ _ Hread).
Qed.

(** X9. A multi-chunk scan throws nothing but the scan-fatal
    [ApiClientError] some chunk's request failed with: when it throws,
    the error is rate_limited, unauthorized or forbidden, it is the
    failure of the last request issued, and no earlier request failed
    that way. *)
Theorem batches_throw_only_fatal (env : Env) (apiKey basePath : string)
    (includeDev : bool) (ecosystemOverride : option Ecosystem)
    (read : ReadResult) (w1 w : World) (e : Exn) :
  readManifest env basePath includeDev start = (Returned read, w1) ->
  BATCH_SIZE < List.length (dependencies read) ->
  scanDependencies env apiKey basePath includeDev ecosystemOverride start
  = (Threw e, w) ->
  let eco := effectiveEcosystem ecosystemOverride read in
  let todo := batchRequests eco (dependencies read) in
  let replies := answers (PkgWatchClient env apiKey) [] todo in
  scanFatal e
  /\ exists k,
      nth_error replies k = Some (Raised e)
      /\ requests w = firstn (S k) todo
      /\ List.length (requests w) = S k
      /\ (forall j a, j < k -> nth_error replies j = Some a -> goesOn a).
Proof.
  intros Hread Hmany Hrun eco todo replies.
  destruct (scanDependencies_batches env apiKey basePath includeDev
              ecosystemOverride read w1 Hread Hmany)
    as (w' & Hrun' & Hreq & _).
  cbv zeta in Hrun', Hreq. fold eco todo replies in Hrun', Hreq.
  rewrite Hrun in Hrun'.
  destruct (fst (policy replies (mkBatchState [] [] 0))) as [st|e'|] eqn:Ev;
    try discriminate.
  injection Hrun' as -> <-.
  split; [exact (policy_threw _ _ _ Ev)|].
  destruct (policy_threw_at _ _ _ Ev) as (k & Hk & Hn & Hbefore).
  exists k. rewrite Hn in Hreq. repeat split; auto.
  rewrite Hreq. apply firstn_length_le.
  assert (k < List.length replies) by (apply nth_error_Some; congruence).
  unfold replies in *. rewrite answers_length in *. lia.
Qed.

(** Chunk 1 rate-limited: that error, after one request. *)
Lemma batches_throw_only_fatal_witness :
  scanFatal (ApiClientError Scenarios.rateLimited)
  /\ exists k,
      nth_error
        (answers (PkgWatchClient Scenarios.throttledEnv "test-key") []
           (batchRequests "npm" (Scenarios.numbered 30))) k
      = Some (Raised (ApiClientError Scenarios.rateLimited))
      /\ k = 0.
Proof.
  destruct (batches_throw_only_fatal Scenarios.throttledEnv "test-key"
              "/repo" true None
              (mkReadResult (Scenarios.numbered 30) "npm" "package.json")
              (mkWorld [] [ReadDirectory ["repo"] true] [])
              (snd (scanDependencies Scenarios.throttledEnv "test-key"
                      "/repo" true None start))
              (ApiClientError Scenarios.rateLimited)
              ltac:(vm_compute; reflexivity)
              ltac:(vm_compute; lia)
              ltac:(vm_compute; reflexivity))
    as (Hfatal & k & Hk & _ & Hlen & _).
  split; [exact Hfatal|]. exists k. split; [exact Hk|].
  vm_compute in Hlen. injection Hlen as <-. reflexivity.
Defined.

(** ** What is sent *)

Lemma ceilDiv_one_batch (n : nat) :
  0 < n <= BATCH_SIZE -> ceilDiv n BATCH_SIZE = 1.
Proof.
  unfold ceilDiv, BATCH_SIZE. intros H. simpl Nat.sub.
  symmetry. apply (Nat.div_unique (n + 24) 25 1 (n - 1)); lia.
Qed.

Lemma flat_map_fst_tagged {A B} (tag : B) (l : list (list A)) :
  flat_map fst (map (fun c => (c, tag)) l) = List.concat l.
Proof.
  induction l as [|c l IH]; simpl; [reflexivity|]. rewrite IH. reflexivity.
Qed.

Lemma Forall_firstn_keeps {A} (P : A -> Prop) (k : nat) (l : list A) :
  Forall P l -> Forall P (firstn k l).
Proof.
  intros H. revert k; induction H as [|a l Ha _ IH]; intros k.
  - rewrite firstn_nil. constructor.
  - destruct k; simpl; constructor; auto.
Qed.

Lemma batchRequests_length (eco : Ecosystem) (deps : Dependencies) :
  List.length (batchRequests eco deps)
  = ceilDiv (List.length deps) BATCH_SIZE.
Proof.
  unfold batchRequests. rewrite length_map.
  apply chunks_count. unfold BATCH_SIZE. lia.
Qed.

(** X7. A scan issues at most ceil(n/25) requests for a mapping of n
    dependencies, whatever happens. When it returns it has issued exactly
    that many (none for the empty mapping, one up to 25), and, the keys
    being distinct, the dependencies it sent, request after request, are
    the mapping itself: each dependency was sent once, in order. *)
Theorem requests_cover_mapping (env : Env) (apiKey basePath : string)
    (includeDev : bool) (ecosystemOverride : option Ecosystem)
    (read : ReadResult) (w1 w : World) (o : Outcome ScanResultWithMeta) :
  readManifest env basePath includeDev start = (Returned read, w1) ->
  scanDependencies env apiKey basePath includeDev ecosystemOverride start
  = (o, w) ->
  let deps := dependencies read in
  List.length (requests w) <= ceilDiv (List.length deps) BATCH_SIZE
  /\ (forall r,
        o = Returned r ->
        List.length (requests w) = ceilDiv (List.length deps) BATCH_SIZE
        /\ (NoDup (map fst deps) -> flat_map fst (requests w) = deps)).
Proof.
  intros Hread Hrun deps.
  set (eco := effectiveEcosystem ecosystemOverride read).
  destruct (Nat.eq_dec (List.length deps) 0) as [E|E].
  - apply length_zero_iff_nil in E.
    destruct (scanDependencies_empty env apiKey basePath includeDev
                ecosystemOverride read w1 Hread E) as (w' & H & Hreq).
    rewrite Hrun in H. injection H as -> ->. rewrite Hreq, E.
    split; [simpl; lia|]. intros r _. split; reflexivity.
  - destruct (Nat.le_gt_cases (List.length deps) BATCH_SIZE) as [L|L].
    + destruct (scanDependencies_single env apiKey basePath includeDev
                  ecosystemOverride read w1 Hread) as (w' & H & Hreq);
        [unfold deps in *; lia|].
      rewrite Hrun in H. injection H as _ ->. rewrite Hreq.
      rewrite ceilDiv_one_batch by lia.
      split; [simpl; lia|]. intros r _. split; [reflexivity|].
      intros _. simpl. apply app_nil_r.
    + destruct (scanDependencies_batches env apiKey basePath includeDev
                  ecosystemOverride read w1 Hread L) as (w' & H & Hreq & _).
      cbv zeta in H, Hreq. rewrite Hrun in H. injection H as Ho <-.
      split.
      * rewrite Hreq, length_firstn, batchRequests_length. apply Nat.le_min_r.
      * intros r ->.
        destruct (returned_is_merged env apiKey basePath includeDev
                    ecosystemOverride read w1 w r Hread L Hrun)
          as (_ & _ & Hall).
        rewrite Hall. split; [apply batchRequests_length|].
        intros Hnd. fold deps. rewrite (batchRequests_distinct _ _ Hnd).
        rewrite flat_map_fst_tagged.
        apply chunks_concat. unfold BATCH_SIZE. lia.
Qed.

(** Thirty dependencies, the first chunk failing: still two requests,
    which carry pkg-0 ... pkg-29 between them. *)
Lemma requests_cover_mapping_witness :
  List.length
    (requests (snd (scanDependencies Scenarios.flakyEnv "test-key" "/repo"
                      true None start))) = 2
  /\ flat_map fst
       (requests (snd (scanDependencies Scenarios.flakyEnv "test-key"
                         "/repo" true None start)))
     = Scenarios.numbered 30.
Proof.
  assert (Hnd : NoDup (map fst (Scenarios.numbered 30))).
  { replace (map fst (Scenarios.numbered 30))
      with (nodup string_dec (map fst (Scenarios.numbered 30)))
      by (vm_compute; reflexivity).
    apply NoDup_nodup. }
  destruct (scanDependencies Scenarios.flakyEnv "test-key" "/repo" true None
              start) as [o w] eqn:Hrun.
  assert (Ho : exists r, o = Returned r).
  { vm_compute in Hrun. injection Hrun as <- _. eexists. reflexivity. }
  destruct Ho as [r Hr].
  destruct (requests_cover_mapping Scenarios.flakyEnv "test-key" "/repo"
              true None
              (mkReadResult (Scenarios.numbered 30) "npm" "package.json")
              (mkWorld [] [ReadDirectory ["repo"] true] []) w o
              ltac:(vm_compute; reflexivity) Hrun) as (_ & H).
  destruct (H r Hr) as (Hlen & Hall).
  split; [exact Hlen | exact (Hall Hnd)].
Defined.

(** X8. The ecosystem of a scan is the override when one is given and
    the reader's otherwise; every request of the scan carries it, and the
    result reports it, together with the reader's format, whichever path
    returned it. *)
Theorem ecosystem_and_format_pass_through (env : Env)
    (apiKey basePath : string) (includeDev : bool)
    (ecosystemOverride : option Ecosystem)
    (read : ReadResult) (w1 w : World) (o : Outcome ScanResultWithMeta) :
  readManifest env basePath includeDev start = (Returned read, w1) ->
  scanDependencies env apiKey basePath includeDev ecosystemOverride start
  = (o, w) ->
  let eco := effectiveEcosystem ecosystemOverride read in
  Forall (fun rq => snd rq = eco) (requests w)
  /\ (forall r,
        o = Returned r ->
        ecosystem r = eco /\ format r = read_format read).
Proof.
  intros Hread Hrun eco.
  destruct (Nat.eq_dec (List.length (dependencies read)) 0) as [E|E].
  - apply length_zero_iff_nil in E.
    destruct (scanDependencies_empty env apiKey basePath includeDev
                ecosystemOverride read w1 Hread E) as (w' & H & Hreq).
    rewrite Hrun in H. injection H as -> ->. rewrite Hreq.
    split; [constructor|]. intros r Hr. injection Hr as <-. auto.
  - destruct (Nat.le_gt_cases (List.length (dependencies read)) BATCH_SIZE)
      as [L|L].
    + destruct (scanDependencies_single env apiKey basePath includeDev
                  ecosystemOverride read w1 Hread) as (w' & H & Hreq);
        [lia|].
      rewrite Hrun in H. injection H as Ho ->. rewrite Hreq.
      split; [repeat constructor|]. intros r ->.
      cbv zeta in Ho.
      destruct (PkgWatchClient env apiKey [] _) as [resp|[m|a|m|t]];
        try discriminate.
      injection Ho as ->. auto.
    + destruct (scanDependencies_batches env apiKey basePath includeDev
                  ecosystemOverride read w1 Hread L) as (w' & H & Hreq & _).
      cbv zeta in H, Hreq. rewrite Hrun in H. injection H as Ho <-.
      split.
      * rewrite Hreq. apply Forall_firstn_keeps.
        unfold batchRequests. apply Forall_forall.
        intros rq Hin. apply in_map_iff in Hin as (c & <- & _). reflexivity.
      * intros r ->.
        destruct (fst (policy _ _)); try discriminate.
        injection Ho as ->. auto.
Qed.

(** The thirty-dependency scan under an override. *)
Lemma ecosystem_and_format_pass_through_witness :
  Forall (fun rq => snd rq = "pypi")
    (requests (snd (scanDependencies Scenarios.thirtyEnv "test-key" "/repo"
                      true (Some "pypi") start)))
  /\ (forall r,
        fst (scanDependencies Scenarios.thirtyEnv "test-key" "/repo" true
               (Some "pypi") start) = Returned r ->
        ecosystem r = "pypi" /\ format r = "package.json").
Proof.
  exact (ecosystem_and_format_pass_through Scenarios.thirtyEnv "test-key"
           "/repo" true (Some "pypi")
           (mkReadResult (Scenarios.numbered 30) "npm" "package.json")
           (mkWorld [] [ReadDirectory ["repo"] true] []) _ _
           eq_refl (surjective_pairing _)).
Defined.

(** ** Partial and total failure of the chunks *)

Lemma filter_isWarning_snoc_info (l : list LogEntry) (text : string) :
  filter isWarning (l ++ [Info text]) = filter isWarning l.
Proof. rewrite filter_app. simpl. apply app_nil_r. Qed.

Lemma filter_isWarning_snoc_debug (l : list LogEntry) (text : string) :
  filter isWarning (l ++ [Debug text]) = filter isWarning l.
Proof. rewrite filter_app. simpl. apply app_nil_r. Qed.

Lemma length_filter_isWarning_snoc (l : list LogEntry) (text : string) :
  List.length (filter isWarning (l ++ [Warning text]))
  = S (List.length (filter isWarning l)).
Proof. rewrite filter_app, length_app. simpl. lia. Qed.

(** A loop that runs to its end has warned once for each chunk it
    counted as failed, and not otherwise. *)
Lemma batchLoop_warnings (env : Env) (apiKey : string)
    (ecosystem : Ecosystem) (depEntries : Dependencies) (fuel : nat) :
  forall i st w st' w',
    batchLoop fuel env apiKey ecosystem depEntries i st w
    = (Returned st', w') ->
    List.length (filter isWarning (log w')) + failedBatches st
    = List.length (filter isWarning (log w)) + failedBatches st'.
Proof.
  induction fuel as [|fuel IH]; intros i st w st' w'; simpl batchLoop;
    destruct (Nat.ltb_spec i (List.length depEntries)) as [Hi|Hi].
  - discriminate.
  - cbv [ret]. intros H. injection H as <- <-. reflexivity.
  - cbv [bind batchTurn core_info logged tryCatch scan ret throw
         core_warning].
    cbn [requests reads log].
    destruct (PkgWatchClient env apiKey (requests w) _) as [r|e].
    + intros H. apply IH in H. cbn [log failedBatches] in H.
      rewrite filter_isWarning_snoc_info in H. exact H.
    + destruct (abortsScan e); cbv beta iota; cbn [requests reads log].
      * discriminate.
      * intros H. apply IH in H. cbn [log failedBatches] in H.
        rewrite length_filter_isWarning_snoc, filter_isWarning_snoc_info
          in H.
        lia.
  - cbv [ret]. intros H. injection H as <- <-. reflexivity.
Qed.

(** The warnings of a multi-chunk scan that returns: one for each failed
    chunk, and the summary when there is any. *)
Lemma scanDependencies_warnings (env : Env) (apiKey basePath : string)
    (includeDev : bool) (ecosystemOverride : option Ecosystem)
    (read : ReadResult) (w1 w : World) (r : ScanResultWithMeta) :
  readManifest env basePath includeDev start = (Returned read, w1) ->
  BATCH_SIZE < List.length (dependencies read) ->
  scanDependencies env apiKey basePath includeDev ecosystemOverride start
  = (Returned r, w) ->
  let failures :=
    List.length
      (filter failed
         (answers (PkgWatchClient env apiKey) []
            (batchRequests (effectiveEcosystem ecosystemOverride read)
               (dependencies read)))) in
  List.length (filter isWarning (log w))
  = failures + (if (0 <? failures)%nat then 1 else 0).
Proof.
  intros Hread Hmany Hrun.
  destruct (returned_is_merged env apiKey basePath includeDev
              ecosystemOverride read w1 w r Hread Hmany Hrun)
    as (Hgo & _ & _).
  cbv zeta in Hgo |- *.
  set (eco := effectiveEcosystem ecosystemOverride read) in *.
  set (replies := answers (PkgWatchClient env apiKey) []
                    (batchRequests eco (dependencies read))) in *.
  destruct (readManifest_effects _ _ _ _ _ _ Hread) as (Hreq1 & Hlog1 & _).
  assert (Hw2 : exists w2,
    scanDependencies env apiKey basePath includeDev ecosystemOverride start
    = scanRead env apiKey (dependencies read) eco (read_format read) w2
    /\ requests w2 = [] /\ filter isWarning (log w2) = []).
  { unfold scanDependencies, bind at 1. rewrite Hread.
    unfold eco, effectiveEcosystem.
    destruct ecosystemOverride as [[|c override]|];
      cbv [bind ret core_debug logged]; eexists;
      (split; [reflexivity|]); cbn [requests log];
      rewrite ?filter_isWarning_snoc_debug, Hreq1, Hlog1; auto. }
  destruct Hw2 as (w2 & Hrun2 & Hreq2 & Hlog2).
  rewrite Hrun2 in Hrun. revert Hrun. unfold scanRead.
  destruct (Nat.eqb_spec (List.length (dependencies read)) 0) as [E|_];
    [lia|].
  destruct (Nat.leb_spec (List.length (dependencies read)) BATCH_SIZE)
    as [E|_]; [lia|].
  cbv [bind core_info logged]. cbv beta iota.
  match goal with
  | |- context [batchLoop ?f _ _ _ _ 0 ?s ?v] =>
      destruct (batchLoop_policy env apiKey eco (dependencies read) f 0 s v)
        as (w3 & Hloop & _); [lia|]
  end.
  cbv zeta in Hloop. cbn [skipn requests] in Hloop.
  rewrite Hreq2 in Hloop |- *. fold replies in Hloop.
  rewrite (policy_goes_on replies Hgo) in Hloop.
  cbn [fst allPackages notFound failedBatches app Nat.add] in Hloop.
  rewrite Hloop.
  apply batchLoop_warnings in Hloop. cbn [log failedBatches] in Hloop.
  rewrite filter_isWarning_snoc_info, Hlog2 in Hloop. simpl in Hloop.
  cbn [failedBatches].
  destruct (Nat.ltb_spec 0 (List.length (filter failed replies))) as [Hf|Hf].
  - cbv [core_warning logged ret]. intros H. injection H as _ <-.
    cbn [log]. rewrite length_filter_isWarning_snoc. lia.
  - cbv [ret]. intros H. injection H as _ <-. lia.
Qed.

(** X10. When every chunk of a multi-chunk scan fails with a failure
    that is not scan-fatal, the scan still requests every chunk and still
    returns: a result with total 0, no packages, no [not_found] list and
    all-zero quality counts, with nothing in it that tells of the
    failures. They show in the log alone: it holds N + 1 warnings for the
    N = ceil(n/25) chunks, one per failed chunk and the summary
    "N batch(es) failed. Results may be incomplete.". *)
Theorem all_chunks_failing_still_returns (env : Env)
    (apiKey basePath : string) (includeDev : bool)
    (ecosystemOverride : option Ecosystem)
    (read : ReadResult) (w1 : World) :
  readManifest env basePath includeDev start = (Returned read, w1) ->
  BATCH_SIZE < List.length (dependencies read) ->
  let eco := effectiveEcosystem ecosystemOverride read in
  let todo := batchRequests eco (dependencies read) in
  let chunkCount := ceilDiv (List.length (dependencies read)) BATCH_SIZE in
  Forall passedOver (answers (PkgWatchClient env apiKey) [] todo) ->
  exists r w,
    scanDependencies env apiKey basePath includeDev ecosystemOverride start
    = (Returned r, w)
    /\ base r
       = mkScanResult 0 0 0 0 0 [] None
           (Some (mkDataQualitySummary 0 0 0)) (Some 0%Z) (Some 0%Z)
    /\ requests w = todo
    /\ In (Warning (toString chunkCount
                    ++ " batch(es) failed. Results may be incomplete."))
         (log w)
    /\ List.length (filter isWarning (log w)) = S chunkCount.
Proof.
  intros Hread Hmany eco todo chunkCount Hall.
  set (replies := answers (PkgWatchClient env apiKey) [] todo) in *.
  assert (Hgo : Forall goesOn replies).
  { eapply Forall_impl; [|exact Hall].
    intros a (e & -> & He). exact He. }
  assert (Hpk : flat_map packagesOf replies = []).
  { clear Hgo. induction Hall as [|a l (e & -> & _) _ IH]; simpl; auto. }
  assert (Hnf : flat_map notFoundOf replies = []).
  { clear Hgo Hpk.
    induction Hall as [|a l (e & -> & _) _ IH]; simpl; auto. }
  assert (Hfail : List.length (filter failed replies) = chunkCount).
  { unfold chunkCount. rewrite <- (batchRequests_length eco). fold todo.
    rewrite <- (answers_length (PkgWatchClient env apiKey) todo []).
    fold replies. clear Hgo Hpk Hnf.
    induction Hall as [|a l (e & -> & _) _ IH]; simpl; auto. }
  assert (Hpos : 0 < chunkCount).
  { unfold chunkCount, ceilDiv, BATCH_SIZE in *. simpl Nat.sub.
    apply Nat.div_str_pos. lia. }
  destruct (scanDependencies_batches env apiKey basePath includeDev
              ecosystemOverride read w1 Hread Hmany)
    as (w & Hrun & Hreq & _ & Hlog).
  cbv zeta in Hrun, Hreq, Hlog. fold eco todo replies in Hrun, Hreq, Hlog.
  rewrite (policy_goes_on replies Hgo) in Hrun, Hreq, Hlog.
  cbn [fst snd allPackages notFound failedBatches app Nat.add]
    in Hrun, Hreq, Hlog.
  rewrite Hpk, Hnf, Hfail in Hrun.
  destruct (returned_is_merged env apiKey basePath includeDev
              ecosystemOverride read w1 w _ Hread Hmany Hrun)
    as (_ & _ & Hall').
  pose proof (scanDependencies_warnings env apiKey basePath includeDev
                ecosystemOverride read w1 w _ Hread Hmany Hrun) as Hwarn.
  cbv zeta in Hwarn. fold eco todo replies in Hwarn.
  rewrite Hfail in Hwarn.
  destruct (Nat.ltb_spec 0 chunkCount) as [_|Hz]; [|lia].
  eexists. exists w. split; [exact Hrun|]. split; [reflexivity|].
  split; [exact Hall'|]. split.
  - rewrite <- Hfail. apply (Hlog _ eq_refl). cbn [failedBatches]. lia.
  - rewrite Hwarn. lia.
Qed.

(** Thirty dependencies and a service that is down: total 0, two
    requests, three warnings. *)
Lemma all_chunks_failing_still_returns_witness :
  exists r w,
    scanDependencies allDownEnv "test-key" "/repo" true None start
    = (Returned r, w)
    /\ total (base r) = 0%Z
    /\ List.length (requests w) = 2
    /\ In (Warning "2 batch(es) failed. Results may be incomplete.") (log w)
    /\ List.length (filter isWarning (log w)) = 3.
Proof.
  destruct (all_chunks_failing_still_returns allDownEnv "test-key" "/repo"
              true None
              (mkReadResult (Scenarios.numbered 30) "npm" "package.json")
              (mkWorld [] [ReadDirectory ["repo"] true] [])
              ltac:(vm_compute; reflexivity)
              ltac:(vm_compute; lia))
    as (r & w & Hrun & Hbase & Hreq & Hlog & Hcount).
  - assert (Hnot : ~ scanFatal Scenarios.serverError).
    { intros (e & He & Hc). injection He as <-.
      destruct Hc as [Hc|[Hc|Hc]]; discriminate Hc. }
    repeat constructor; exists Scenarios.serverError; split;
      [reflexivity | exact Hnot | reflexivity | exact Hnot].
  - exists r, w. split; [exact Hrun|].
    split; [rewrite Hbase; reflexivity|].
    split; [rewrite Hreq; reflexivity|].
    split; [exact Hlog | exact Hcount].
Defined.

(** ** The counts of lines 165-203 *)

Lemma assessments_partition (l : list PackageHealth) :
  List.length (filter (fun p => Assessment_eqb (countsAs p) VERIFIED) l)
  + List.length (filter (fun p => Assessment_eqb (countsAs p) PARTIAL) l)
  + List.length (filter (fun p => Assessment_eqb (countsAs p) UNVERIFIED) l)
  = List.length l.
Proof.
  induction l as [|p l IH]; [reflexivity|].
  simpl. destruct (countsAs p); simpl; lia.
Qed.

Lemma risks_partition (l : list PackageHealth) :
  List.length (filter (fun p => Assessment_eqb (countsAs p) VERIFIED
                                && highOrCritical p) l)
  + List.length (filter (fun p => (Assessment_eqb (countsAs p) PARTIAL
                                   || Assessment_eqb (countsAs p) UNVERIFIED)
                                  && highOrCritical p) l)
  = List.length (filter (fun p => RiskLevel_eqb (risk_level p) CRITICAL) l)
    + List.length (filter (fun p => RiskLevel_eqb (risk_level p) HIGH) l).
Proof.
  induction l as [|p l IH]; [reflexivity|].
  rewrite !length_filter_cons.
  destruct (highOrCritical p) eqn:Eh; unfold highOrCritical in Eh;
    destruct (risk_level p); try discriminate Eh;
    destruct (countsAs p); simpl; lia.
Qed.

(** X11. In the result of a multi-chunk scan the three data-quality
    counts add up to the total, and the verified and unverified risk
    counts add up to critical + high: every package is counted under
    exactly one assessment, every HIGH or CRITICAL package under exactly
    one of the two risk counts. *)
Theorem quality_counts_partition (env : Env) (apiKey basePath : string)
    (includeDev : bool) (ecosystemOverride : option Ecosystem)
    (read : ReadResult) (w1 w : World) (r : ScanResultWithMeta) :
  readManifest env basePath includeDev start = (Returned read, w1) ->
  BATCH_SIZE < List.length (dependencies read) ->
  scanDependencies env apiKey basePath includeDev ecosystemOverride start
  = (Returned r, w) ->
  exists q v u,
    quality (base r) = Some q
    /\ verified_risk_count (base r) = Some v
    /\ unverified_risk_count (base r) = Some u
    /\ (verified_count q + partial_count q + unverified_count q)%Z
       = total (base r)
    /\ (v + u)%Z = (critical (base r) + high (base r))%Z.
Proof.
  intros Hread Hmany Hrun.
  destruct (returned_is_merged env apiKey basePath includeDev
              ecosystemOverride read w1 w r Hread Hmany Hrun)
    as (_ & -> & _).
  unfold aggregate. cbn [base quality verified_risk_count
    unverified_risk_count total critical high].
  rewrite fold_tally. cbn [verifiedCount partialCount unverifiedCount
    verifiedRiskCount unverifiedRiskCount Nat.add].
  do 3 eexists. split; [reflexivity|]. split; [reflexivity|].
  split; [reflexivity|].
  cbn [verified_count partial_count unverified_count]. unfold withRisk.
  set (l := allPackages _).
  pose proof (assessments_partition l). pose proof (risks_partition l).
  split; lia.
Qed.

(** Six packages with every kind of assessment: 2 + 1 + 3 = 6 and
    1 + 3 = 2 + 2. *)
Lemma quality_counts_partition_witness :
  exists q v u,
    quality (base (mkScanResultWithMeta
                     (aggregate (mkBatchState Scenarios.mixedQuality [] 0))
                     "package.json" "npm")) = Some q
    /\ (verified_count q + partial_count q + unverified_count q)%Z = 6%Z
    /\ (v + u)%Z = 4%Z.
Proof.
  destruct (quality_counts_partition Scenarios.mixedEnv "test-key" "/repo"
              true None
              (mkReadResult (Scenarios.numbered 26) "npm" "package.json")
              (mkWorld [] [ReadDirectory ["repo"] true] [])
              (snd (scanDependencies Scenarios.mixedEnv "test-key" "/repo"
                      true None start))
              (mkScanResultWithMeta
                 (aggregate (mkBatchState Scenarios.mixedQuality [] 0))
                 "package.json" "npm")
              ltac:(vm_compute; reflexivity)
              ltac:(vm_compute; lia)
              ltac:(vm_compute; reflexivity))
    as (q & v & u & Hq & _ & _ & Hsum & Hrisk).
  exists q, v, u. split; [exact Hq|]. split; [exact Hsum | exact Hrisk].
Defined.

(** ** What is logged *)

Lemma filter_isInfo_snoc_info (l : list LogEntry) (text : string) :
  filter isInfo (l ++ [Info text]) = (filter isInfo l ++ [Info text])%list.
Proof. rewrite filter_app. reflexivity. Qed.

Lemma filter_isInfo_snoc_warning (l : list LogEntry) (text : string) :
  filter isInfo (l ++ [Warning text]) = filter isInfo l.
Proof. rewrite filter_app. simpl. apply app_nil_r. Qed.

Lemma filter_isInfo_snoc_debug (l : list LogEntry) (text : string) :
  filter isInfo (l ++ [Debug text]) = filter isInfo l.
Proof. rewrite filter_app. simpl. apply app_nil_r. Qed.

Section LoopLog.
Variable env : Env.
Variable apiKey : string.
Variable ecosystem : Ecosystem.
Variable depEntries : Dependencies.

(** The loop announces each request it issues, and nothing else at info
    level: started at index [k * BATCH_SIZE], it logs one progress line
    per request, numbered from [k + 1]. *)
Lemma batchLoop_progress (fuel k : nat) (st : BatchState) (w : World) :
  List.length depEntries - k * BATCH_SIZE <= fuel ->
  let w' :=
    snd (batchLoop fuel env apiKey ecosystem depEntries (k * BATCH_SIZE)
           st w) in
  filter isInfo (log w')
  = (filter isInfo (log w)
     ++ map (progressLine (ceilDiv (List.length depEntries) BATCH_SIZE))
          (seq (S k) (List.length (requests w')
                      - List.length (requests w))))%list.
Proof.
  revert k st w; induction fuel as [|fuel IH]; intros k st w Hfuel;
    cbv zeta; simpl batchLoop;
    destruct (Nat.ltb_spec (k * BATCH_SIZE) (List.length depEntries))
      as [Hi|Hi]; try lia.
  - cbn [ret snd]. rewrite Nat.sub_diag. simpl. symmetry. apply app_nil_r.
  - assert (Hnext : List.length depEntries - S k * BATCH_SIZE <= fuel)
      by (unfold BATCH_SIZE in *; lia).
    assert (Hnum : k * BATCH_SIZE / BATCH_SIZE + 1 = S k).
    { rewrite Nat.div_mul by (unfold BATCH_SIZE; lia). lia. }
    cbv [bind batchTurn core_info logged tryCatch scan ret throw
         core_warning].
    cbn [requests reads log]. rewrite Hnum, <- Nat.mul_succ_l.
    fold (progressLine (ceilDiv (List.length depEntries) BATCH_SIZE) (S k)).
    destruct (PkgWatchClient env apiKey (requests w) _) as [r|e].
    + match goal with
      | |- context [batchLoop fuel _ _ _ _ _ ?s ?v] =>
          pose proof (IH (S k) s v Hnext) as Hlog;
          destruct (batchLoop_policy env apiKey ecosystem depEntries fuel
                      (S k * BATCH_SIZE) s v Hnext) as (w2 & Hrun & Hreq & _)
      end.
      cbv zeta in Hlog, Hrun, Hreq. rewrite Hrun in Hlog |- *.
      cbn [snd requests log] in Hlog, Hreq |- *.
      apply (f_equal (@List.length _)) in Hreq.
      rewrite !length_app in Hreq. cbn [List.length] in Hreq.
      rewrite Hlog, length_app. cbn [List.length].
      replace (List.length (requests w2) - List.length (requests w))
        with (S (List.length (requests w2)
                 - (List.length (requests w) + 1))) by lia.
      unfold progressLine at 1.
      rewrite filter_isInfo_snoc_info, <- app_assoc. reflexivity.
    + destruct (abortsScan e); cbv beta iota; cbn [requests reads log snd].
      * rewrite length_app. cbn [List.length].
        replace (List.length (requests w) + 1 - List.length (requests w))
          with 1 by lia.
        unfold progressLine at 1. apply filter_isInfo_snoc_info.
      * match goal with
        | |- context [batchLoop fuel _ _ _ _ _ ?s ?v] =>
            pose proof (IH (S k) s v Hnext) as Hlog;
            destruct (batchLoop_policy env apiKey ecosystem depEntries fuel
                        (S k * BATCH_SIZE) s v Hnext)
              as (w2 & Hrun & Hreq & _)
        end.
        cbv zeta in Hlog, Hrun, Hreq. rewrite Hrun in Hlog |- *.
        cbn [snd requests log] in Hlog, Hreq |- *.
        apply (f_equal (@List.length _)) in Hreq.
        rewrite !length_app in Hreq. cbn [List.length] in Hreq.
        rewrite Hlog, length_app. cbn [List.length].
        replace (List.length (requests w2) - List.length (requests w))
          with (S (List.length (requests w2)
                   - (List.length (requests w) + 1))) by lia.
        unfold progressLine at 1.
        rewrite filter_isInfo_snoc_warning, filter_isInfo_snoc_info,
          <- app_assoc.
        reflexivity.
  - cbn [ret snd]. rewrite Nat.sub_diag. simpl. symmetry. apply app_nil_r.
Qed.

End LoopLog.

Lemma scanRead_progress (env : Env) (apiKey : string) (deps : Dependencies)
    (eco : Ecosystem) (fmt : string) (w : World) :
  BATCH_SIZE < List.length deps ->
  let w' := snd (scanRead env apiKey deps eco fmt w) in
  filter isInfo (log w')
  = (filter isInfo (log w)
     ++ foundLine (List.length deps) eco fmt
        :: map (progressLine (ceilDiv (List.length deps) BATCH_SIZE))
             (seq 1 (List.length (requests w')
                     - List.length (requests w))))%list.
Proof.
  intros Hlen. cbv zeta. unfold scanRead.
  destruct (Nat.eqb_spec (List.length deps) 0) as [E|_]; [lia|].
  destruct (Nat.leb_spec (List.length deps) BATCH_SIZE) as [E|_]; [lia|].
  cbv [bind core_info logged]. cbv beta iota.
  fold (foundLine (List.length deps) eco fmt).
  match goal with
  | |- context [batchLoop ?f _ _ _ _ 0 ?s ?v] =>
      pose proof (batchLoop_progress env apiKey eco deps f 0 s v) as Hlog;
      change (0 * BATCH_SIZE) with 0 in Hlog;
      specialize (Hlog ltac:(lia)); cbv zeta in Hlog;
      destruct (batchLoop f env apiKey eco deps 0 s v) as [o w2]
  end.
  cbn [snd requests log] in Hlog.
  assert (Hgoal :
    filter isInfo (log w2)
    = (filter isInfo (log w)
       ++ foundLine (List.length deps) eco fmt
          :: map (progressLine (ceilDiv (List.length deps) BATCH_SIZE))
               (seq 1 (List.length (requests w2)
                       - List.length (requests w))))%list).
  { rewrite Hlog. unfold foundLine at 1.
    rewrite filter_isInfo_snoc_info, <- app_assoc. reflexivity. }
  destruct o as [st|e|]; cbn [snd]; try exact Hgoal.
  destruct (Nat.ltb_spec 0 (failedBatches st)).
  - cbv [core_warning logged ret]. cbn [snd requests log].
    rewrite filter_isInfo_snoc_warning. exact Hgoal.
  - cbv [ret]. cbn [snd]. exact Hgoal.
Qed.

(** X12. The info lines of a multi-chunk scan are the line that
    announces the dependencies found, and then one progress line per
    request issued, "Processing batch k/n...", with k counting the
    requests from 1 and n = ceil(count/25) the number of chunks; there is
    no other info line, and no request without its line. *)
Theorem progress_lines_numbered (env : Env) (apiKey basePath : string)
    (includeDev : bool) (ecosystemOverride : option Ecosystem)
    (read : ReadResult) (w1 : World) :
  readManifest env basePath includeDev start = (Returned read, w1) ->
  BATCH_SIZE < List.length (dependencies read) ->
  let w :=
    snd (scanDependencies env apiKey basePath includeDev ecosystemOverride
           start) in
  let depCount := List.length (dependencies read) in
  filter isInfo (log w)
  = foundLine depCount (effectiveEcosystem ecosystemOverride read)
      (read_format read)
    :: map (progressLine (ceilDiv depCount BATCH_SIZE))
         (seq 1 (List.length (requests w))).
Proof.
  intros Hread Hmany. cbv zeta.
  destruct (readManifest_effects _ _ _ _ _ _ Hread) as (Hreq1 & Hlog1 & _).
  assert (Hw2 : exists w2,
    scanDependencies env apiKey basePath includeDev ecosystemOverride start
    = scanRead env apiKey (dependencies read)
        (effectiveEcosystem ecosystemOverride read) (read_format read) w2
    /\ requests w2 = [] /\ filter isInfo (log w2) = []).
  { unfold scanDependencies, bind at 1. rewrite Hread.
    unfold effectiveEcosystem.
    destruct ecosystemOverride as [[|c override]|];
      cbv [bind ret core_debug logged]; eexists;
      (split; [reflexivity|]); cbn [requests log];
      rewrite ?filter_isInfo_snoc_debug, Hreq1, Hlog1; auto. }
  destruct Hw2 as (w2 & -> & Hreq2 & Hlog2).
  rewrite (scanRead_progress env apiKey (dependencies read) _ _ w2 Hmany).
  rewrite Hlog2, Hreq2. cbn [List.length app]. rewrite Nat.sub_0_r.
  reflexivity.
Qed.

(** Thirty dependencies: "Found 30 ...", then batch 1/2 and batch 2/2. *)
Lemma progress_lines_numbered_witness :
  filter isInfo
    (log (snd (scanDependencies Scenarios.flakyEnv "test-key" "/repo" true
                 None start)))
  = [Info "Found 30 npm dependencies in package.json, analyzing health scores...";
     Info "Processing batch 1/2..."; Info "Processing batch 2/2..."].
Proof.
  rewrite (progress_lines_numbered Scenarios.flakyEnv "test-key" "/repo"
             true None
             (mkReadResult (Scenarios.numbered 30) "npm" "package.json")
             (mkWorld [] [ReadDirectory ["repo"] true] [])
             ltac:(vm_compute; reflexivity)
             ltac:(vm_compute; lia)).
  vm_compute. reflexivity.
Defined.

End ScannerMore.
